(** * midi2keystroke: matching and dispatch of MIDI events to key strokes

    A shallow embedding of [midi2keystroke.py] and of the [sendKey.py]
    module it calls.  Python values that the configuration file can hold
    are the type [yaml]; Python exceptions are the type [exn]; code that
    can raise returns a [result]; code that logs, sleeps or calls into
    [sendKey] runs in the monad [M], which threads the state of the key
    injection module and the list of effects performed so far.

    Strings are ASCII text.  The text of a message is not rendered: a
    message of the log, of an exception or of [main] is kept as its format
    and its arguments.  The float [deltatime] and the wall clock that
    [MidiInputHandler.__call__] accumulates from it are left out: they are
    only printed by the debug log line. *)

From Stdlib Require Import ZArith String Ascii List Bool Lia.
From stdpp Require Import base option list gmap strings.
Import ListNotations.
Open Scope Z_scope.

(** ** Python exceptions and results *)

(** An exception is kept as its class; an [IOError] also has its message,
    since the program formats it: the file that is not found, or the
    exception that made an entry of the configuration invalid. *)
Inductive exn : Type :=
| TypeError
| ValueError
| AttributeError
| IndexError
| KeyError
| UnboundLocalError
| EOFError
| KeyboardInterrupt
| IOError (msg : message)
with message : Type :=
| NoSuchFile (filename : string)
| ConfigFileNotFound (filename : string)
| InvalidCommandSpecification (exc : exn)
| Other (text : string).

Inductive result (A : Type) : Type :=
| Ok (a : A)
| Raise (e : exn).
Arguments Ok {A} a.
Arguments Raise {A} e.

Definition rbind {A B : Type} (r : result A) (k : A -> result B) : result B :=
  match r with
  | Ok a => k a
  | Raise e => Raise e
  end.

#[global] Instance result_ret : MRet result := fun A a => Ok a.
#[global] Instance result_bind : MBind result := fun A B k r => rbind r k.
#[global] Instance result_fmap : FMap result := fun A B f r =>
  match r with
  | Ok a => Ok (f a)
  | Raise e => Raise e
  end.

(** ** Python string methods used by the program *)

Module PyStr.

(** [str.isspace] on an ASCII character: tab, line feed, vertical tab,
    form feed, carriage return, the four separators 0x1c-0x1f, space. *)
Definition is_space (c : ascii) : bool :=
  let n := nat_of_ascii c in
  ((9 <=? n)%nat && (n <=? 13)%nat) || ((28 <=? n)%nat && (n <=? 32)%nat).

Fixpoint lstrip_chars (l : list ascii) : list ascii :=
  match l with
  | c :: l' => if is_space c then lstrip_chars l' else l
  | [] => []
  end.

Definition strip_chars (l : list ascii) : list ascii :=
  rev (lstrip_chars (rev (lstrip_chars l))).

(** [s.strip()] *)
Definition strip (s : string) : string :=
  string_of_list_ascii (strip_chars (list_ascii_of_string s)).

Definition lower_char (c : ascii) : ascii :=
  let n := nat_of_ascii c in
  if ((65 <=? n)%nat && (n <=? 90)%nat) then ascii_of_nat (n + 32) else c.

(** [s.lower()] *)
Fixpoint lower (s : string) : string :=
  match s with
  | EmptyString => EmptyString
  | String c s' => String (lower_char c) (lower s')
  end.

(** [s.split()]: the maximal runs of characters that are not white space.
    [cur] is the run being read, in reverse. *)
Fixpoint split_chars (cur : list ascii) (l : list ascii) : list string :=
  match l with
  | [] =>
      match cur with
      | [] => []
      | _ => [string_of_list_ascii (rev cur)]
      end
  | c :: l' =>
      if is_space c then
        match cur with
        | [] => split_chars [] l'
        | _ => string_of_list_ascii (rev cur) :: split_chars [] l'
        end
      else split_chars (c :: cur) l'
  end.

Definition split (s : string) : list string :=
  split_chars [] (list_ascii_of_string s).

Definition digit_val (c : ascii) : option Z :=
  let n := nat_of_ascii c in
  if ((48 <=? n)%nat && (n <=? 57)%nat) then Some (Z.of_nat n - 48) else None.

Definition hex_val (c : ascii) : option Z :=
  let n := nat_of_ascii c in
  if ((48 <=? n)%nat && (n <=? 57)%nat) then Some (Z.of_nat n - 48)
  else if ((97 <=? n)%nat && (n <=? 102)%nat) then Some (Z.of_nat n - 87)
  else if ((65 <=? n)%nat && (n <=? 70)%nat) then Some (Z.of_nat n - 55)
  else None.

(** Digits of an integer literal in base [base]: at least one digit, and
    single underscores only between two digits.  [after_digit] tells
    whether the previous character was a digit. *)
Fixpoint digits (val : ascii -> option Z) (base acc : Z) (after_digit : bool)
         (l : list ascii) : option Z :=
  match l with
  | [] => if after_digit then Some acc else None
  | c :: l' =>
      match val c with
      | Some d => digits val base (base * acc + d) true l'
      | None =>
          if (Ascii.eqb c "_" && after_digit)%bool
          then digits val base acc false l'
          else None
      end
  end.

Definition signed (body : list ascii -> option Z) (l : list ascii) : option Z :=
  match l with
  | c :: l' =>
      if Ascii.eqb c "-" then option_map Z.opp (body l')
      else if Ascii.eqb c "+" then body l'
      else body l
  | [] => None
  end.

(** The white space that [int] accepts around a literal: tab, line feed,
    vertical tab, form feed, carriage return and space, but not the
    separators 0x1c-0x1f that [str.strip] removes. *)
Definition is_int_space (c : ascii) : bool :=
  let n := nat_of_ascii c in
  ((9 <=? n)%nat && (n <=? 13)%nat) || (n =? 32)%nat.

Fixpoint int_lstrip (l : list ascii) : list ascii :=
  match l with
  | c :: l' => if is_int_space c then int_lstrip l' else l
  | [] => []
  end.

Definition int_strip (l : list ascii) : list ascii :=
  rev (int_lstrip (rev (int_lstrip l))).

(** [int(s)] on a string: [None] stands for [ValueError]. *)
Definition int (s : string) : option Z :=
  signed (digits digit_val 10 0 false) (int_strip (list_ascii_of_string s)).

(** [int(s, 16)] on a string: an optional [0x] or [0X] prefix, which may
    be followed by one underscore. *)
Definition hex_body (l : list ascii) : option Z :=
  match l with
  | z :: x :: l' =>
      if (Ascii.eqb z "0" && (Ascii.eqb x "x" || Ascii.eqb x "X"))%bool then
        match l' with
        | u :: l'' =>
            if Ascii.eqb u "_" then digits hex_val 16 0 false l''
            else digits hex_val 16 0 false l'
        | [] => None
        end
      else digits hex_val 16 0 false l
  | _ => digits hex_val 16 0 false l
  end.

Definition int16 (s : string) : option Z :=
  signed hex_body (int_strip (list_ascii_of_string s)).

End PyStr.

(** ** Values of the configuration file *)

(** A float, as far as the program looks at it: it is only compared with
    an integer.  A finite float is [m * 2 ^ e], as every double is. *)
Inductive pyfloat : Type :=
| Finite (m e : Z)
| Infinity (negative : bool)
| NaN.

(** What [yaml.load] returns: null, booleans, integers, floats, strings,
    sequences, and mappings with string keys (a mapping is the list of its
    entries in insertion order, without duplicate keys). *)
#[warnings="-register-all"]
Inductive yaml : Type :=
| YNull
| YBool (b : bool)
| YInt (z : Z)
| YFloat (x : pyfloat)
| YStr (s : string)
| YSeq (items : list yaml)
| YMap (entries : list (string * yaml)).

(** [x == n] for a float and an integer: the comparison is exact. *)
Definition float_eq_int (x : pyfloat) (n : Z) : bool :=
  match x with
  | Finite m e => if 0 <=? e then m * 2 ^ e =? n else m =? n * 2 ^ (- e)
  | Infinity _ | NaN => false
  end.

(** [v == n] for a value of the configuration and an integer: [True] is 1,
    [False] is 0, a float is equal to the integer of the same value. *)
Definition eq_int (v : yaml) (n : Z) : bool :=
  match v with
  | YInt z => z =? n
  | YBool b => Z.b2z b =? n
  | YFloat x => float_eq_int x n
  | YNull | YStr _ | YSeq _ | YMap _ => false
  end.

(** [len(v)] *)
Definition py_len (v : yaml) : result Z :=
  match v with
  | YStr s => Ok (Z.of_nat (String.length s))
  | YSeq items => Ok (Z.of_nat (List.length items))
  | YMap entries => Ok (Z.of_nat (List.length entries))
  | YNull | YBool _ | YInt _ | YFloat _ => Raise TypeError
  end.

Fixpoint chars (s : string) : list yaml :=
  match s with
  | EmptyString => []
  | String c s' => YStr (String c EmptyString) :: chars s'
  end.

(** The items that iterating over [v] yields: the items of a sequence, the
    keys of a mapping, the characters of a string. *)
Definition py_iter (v : yaml) : result (list yaml) :=
  match v with
  | YStr s => Ok (chars s)
  | YSeq items => Ok items
  | YMap entries => Ok (map (fun e => YStr (fst e)) entries)
  | YNull | YBool _ | YInt _ | YFloat _ => Raise TypeError
  end.

(** ** MIDI status bytes and module constants *)

(** The status bytes of [rtmidi.midiconstants], which the program imports:
    the channel voice messages of MIDI 1.0. *)
Definition NOTE_OFF : Z := 0x80.
Definition NOTE_ON : Z := 0x90.
Definition POLY_PRESSURE : Z := 0xA0.
Definition CONTROLLER_CHANGE : Z := 0xB0.
Definition PROGRAM_CHANGE : Z := 0xC0.
Definition CHANNEL_PRESSURE : Z := 0xD0.
Definition PITCH_BEND : Z := 0xE0.

Definition STATUS_MAP : gmap string Z :=
  list_to_map
    [ ("noteon"%string, NOTE_ON);
      ("noteoff"%string, NOTE_OFF);
      ("programchange"%string, PROGRAM_CHANGE);
      ("controllerchange"%string, CONTROLLER_CHANGE);
      ("pitchbend"%string, PITCH_BEND);
      ("polypressure"%string, POLY_PRESSURE);
      ("channelpressure"%string, CHANNEL_PRESSURE) ].

Definition KEY_UP : Z := 1.
Definition KEY_DOWN : Z := 2.
Definition KEY_DOWN_UP : Z := Z.lor KEY_UP KEY_DOWN.

(** ** class KeyStroke *)

(** The [data] attribute of a rule: [None], an [int] (a [bool] is an [int],
    of value 1 or 0), or the list of integers read from a string. *)
Inductive rule_data : Type :=
| DNone
| DInt (z : Z)
| DList (l : list Z).

Module KeyStroke.

Record t : Type := mk {
  name : yaml;
  description : yaml;
  status : yaml;
  channel : yaml;
  keys : list string;
  data : rule_data
}.

(** [KeyStroke.__init__].  [keys.split()] is evaluated before [data] is
    looked at, and only a string has [split]. *)
Definition init (name description status channel data keys : yaml) : result t :=
  match keys with
  | YStr k =>
      let keys' := PyStr.split k in
      match data with
      | YNull => Ok (mk name description status channel keys' DNone)
      | YInt z => Ok (mk name description status channel keys' (DInt z))
      | YBool b => Ok (mk name description status channel keys' (DInt (Z.b2z b)))
      | YStr d =>
          match mapM PyStr.int (PyStr.split d) with
          | Some l => Ok (mk name description status channel keys' (DList l))
          | None => Raise ValueError
          end
      | YFloat _ | YSeq _ | YMap _ => Raise TypeError
      end
  | _ => Raise AttributeError
  end.

Definition parameters : list string :=
  ["name"; "description"; "status"; "channel"; "data"; "keys"]%string.

Fixpoint get (k : string) (dflt : yaml) (entries : list (string * yaml)) : yaml :=
  match entries with
  | [] => dflt
  | (k', v) :: rest => if String.eqb k k' then v else get k dflt rest
  end.

(** The call with the entries of a mapping as keyword arguments: a key
    that is not a parameter is a [TypeError]; a missing one takes the
    default of the signature. *)
Definition of_kwargs (entries : list (string * yaml)) : result t :=
  if forallb (fun e => existsb (String.eqb (fst e)) parameters) entries then
    init (get "name" (YStr "") entries) (get "description" (YStr "") entries)
         (get "status" (YInt 0xB0) entries) (get "channel" YNull entries)
         (get "data" YNull entries) (get "keys" YNull entries)
  else Raise TypeError.

(** The call with the items of [cmdspec] as positional arguments: more
    than six are a [TypeError]. *)
Definition of_args (args : list yaml) : result t :=
  match args with
  | [] => init (YStr "") (YStr "") (YInt 0xB0) YNull YNull YNull
  | [a] => init a (YStr "") (YInt 0xB0) YNull YNull YNull
  | [a; b] => init a b (YInt 0xB0) YNull YNull YNull
  | [a; b; c] => init a b c YNull YNull YNull
  | [a; b; c; d] => init a b c d YNull YNull
  | [a; b; c; d; e] => init a b c d e YNull
  | [a; b; c; d; e; f] => init a b c d e f
  | _ => Raise TypeError
  end.

End KeyStroke.

(** ** Effects *)

Inductive level : Type := DEBUG | INFO | ERROR.

(** One constructor per logging call of the program, with its arguments. *)
Inductive logmsg : Type :=
| MsgEvent (status : Z) (channel data1 data2 : option Z)
| MsgNoCmd
| MsgPress (key : string)
| MsgDelay
| MsgRelease (key : string)
| MsgErrorCalling (e : exn)
| MsgCmdspec (cmdspec : yaml)
| MsgUnknownStatus (status : string)
| MsgConfig (name description : yaml) (keys : list string)
| MsgAttaching
| MsgMainLoop.

(** What the program does to the outside, in the order it does it.  A call
    is recorded when it is made, whether or not it then raises. *)
Inductive effect : Type :=
| Log (lvl : level) (m : logmsg)
| Sleep (ms : Z)
| Call_SetKeyboardConsts (panel_key : string)
| Call_PressKey (hexKeyCode : Z)
| Call_ReleaseKey (hexKeyCode : Z)
| Call_open_midiinput
| Call_set_callback.

(** The interface of module [sendKey] that the program uses.  [W] is the
    state behind it: the bindings file and the input queue of the system. *)
Class SendKey (W : Type) : Type := {
  SetKeyboardConsts : string -> W -> result Z * W;
  PressKey : Z -> W -> result unit * W;
  ReleaseKey : Z -> W -> result unit * W
}.

Record state (W : Type) : Type := mkState {
  world : W;
  trace : list effect
}.
Arguments mkState {W} world trace.
Arguments world {W} s.
Arguments trace {W} s.

(** State and exceptions: a computation that raises keeps the state it has
    reached. *)
Definition M (W A : Type) : Type := state W -> result A * state W.

#[global] Instance M_ret {W} : MRet (M W) := fun A a s => (Ok a, s).
#[global] Instance M_bind {W} : MBind (M W) := fun A B k m s =>
  match m s with
  | (Ok a, s') => k a s'
  | (Raise e, s') => (Raise e, s')
  end.

Definition raise {W A} (e : exn) : M W A := fun s => (Raise e, s).

Definition lift {W A} (r : result A) : M W A := fun s => (r, s).

Definition emit {W} (e : effect) : M W unit :=
  fun s => (Ok tt, mkState (world s) (trace s ++ [e])).

Definition log {W} (lvl : level) (m : logmsg) : M W unit := emit (Log lvl m).

(** [try: body except: handler], catching every exception. *)
Definition try_except {W A} (body : M W A) (handler : exn -> M W A) : M W A :=
  fun s =>
    match body s with
    | (Ok a, s') => (Ok a, s')
    | (Raise e, s') => handler e s'
    end.

(** [for x in l: body] *)
Fixpoint for_each {W A} (body : A -> M W unit) (l : list A) : M W unit :=
  match l with
  | [] => mret tt
  | x :: l' => body x ;; for_each body l'
  end.

(** A call into [sendKey]: recorded in the trace, answered by the module. *)
Definition call_sendKey {W A} (e : effect) (f : W -> result A * W) : M W A :=
  fun s =>
    let (r, w) := f (world s) in
    (r, mkState w (trace s ++ [e])).

(** ** module sendKey *)

Module sendKey.

(** The fields of the [KeyBdInput] structure that [SendInput] is given
    ([dwExtraInfo] points to a zero). *)
Record KeyBdInput : Type := mkInput {
  wVk : Z;
  wScan : Z;
  dwFlags : Z;
  time : Z
}.

(** [keybindings]: the object under ["keybindings"] in the file
    [keybindings.json], with strings for values and no key twice; [None]
    when the file cannot be opened.  [sent]: the inputs handed to
    [SendInput]. *)
Record os : Type := mkOs {
  keybindings : option (list (string * string));
  sent : list KeyBdInput
}.

Fixpoint lookup (k : string) (l : list (string * string)) : option string :=
  match l with
  | [] => None
  | (k', v) :: rest => if String.eqb k k' then Some v else lookup k rest
  end.

Definition SetKeyboardConsts (panel_key : string) (w : os) : result Z * os :=
  match keybindings w with
  | None => (Raise (IOError (NoSuchFile "keybindings.json")), w)
  | Some key_binds =>
      match lookup panel_key key_binds with
      | None => (Raise KeyError, w)
      | Some v =>
          match PyStr.int16 v with
          | Some z => (Ok z, w)
          | None => (Raise ValueError, w)
          end
      end
  end.

(** A [c_ushort] field keeps the low 16 bits of the integer it is given. *)
Definition c_ushort (z : Z) : Z := z mod 2 ^ 16.

Definition SendInput (x : KeyBdInput) (w : os) : os :=
  mkOs (keybindings w) (sent w ++ [x]).

Definition PressKey (hexKeyCode : Z) (w : os) : result unit * os :=
  (Ok tt, SendInput (mkInput 0 (c_ushort hexKeyCode) 0x0008 0) w).

Definition ReleaseKey (hexKeyCode : Z) (w : os) : result unit * os :=
  (Ok tt, SendInput (mkInput 0 (c_ushort hexKeyCode) (Z.lor 0x0008 0x0002) 0) w).

(** [KeyStroke]: the key is pressed, then released, with a sleep of 0.1 s
    after each. *)
Definition KeyStroke (hexKeyCode : Z) : M os unit :=
  call_sendKey (Call_PressKey hexKeyCode) (PressKey hexKeyCode) ;;
  emit (Sleep 100) ;;
  call_sendKey (Call_ReleaseKey hexKeyCode) (ReleaseKey hexKeyCode) ;;
  emit (Sleep 100).

End sendKey.

#[global] Instance sendKey_os : SendKey sendKey.os := {
  SetKeyboardConsts := sendKey.SetKeyboardConsts;
  PressKey := sendKey.PressKey;
  ReleaseKey := sendKey.ReleaseKey
}.

(** ** class MidiInputHandler *)

Module MidiInputHandler.

(** [keystrokes] is the dictionary from status code to the rules filed
    under it, in the order they were appended.  Its keys are what
    [STATUS_MAP.get] returns: a status byte or [None]. *)
Record t : Type := mk {
  port : string;
  keystrokes : gmap (option Z) (list KeyStroke.t)
}.

(** *** lookup_command *)

(** The first statement of [lookup_command]: note-off is looked up as
    note-on, and the value of a controller change falls into one of the
    buckets 63, 64, 65.  Comparing [None] with 64 is a [TypeError]. *)
Definition normalize (status : Z) (data2 : option Z) : result (Z * option Z) :=
  if status =? NOTE_OFF then Ok (NOTE_ON, data2)
  else if status =? CONTROLLER_CHANGE then
    match data2 with
    | None => Raise TypeError
    | Some d =>
        if d <? 64 then Ok (status, Some 63)
        else if d >? 64 then Ok (status, Some 65)
        else Ok (status, data2)
    end
  else Ok (status, data2).

(** [keystroke.channel != channel], for the integer [channel] of an event *)
Definition channel_ne (c : yaml) (channel : Z) : bool :=
  negb (eq_int c channel).

(** [n == d], for an integer [n] of a rule and a data byte of an event *)
Definition int_eq (n : Z) (d : option Z) : bool :=
  match d with
  | Some x => n =? x
  | None => false
  end.

(** [keystroke.data == data1] *)
Definition data_eq (d : rule_data) (data1 : option Z) : bool :=
  match d, data1 with
  | DNone, None => true
  | DInt z, _ => int_eq z data1
  | _, _ => false
  end.

(** [isinstance(keystroke.data, list) and keystroke.data[0] == data1 and
    keystroke.data[1] == data2]: an index out of range is an
    [IndexError]. *)
Definition pair_eq (d : rule_data) (data1 data2 : option Z) : result bool :=
  match d with
  | DList [] => Raise IndexError
  | DList (a :: l) =>
      if int_eq a data1 then
        match l with
        | [] => Raise IndexError
        | b :: _ => Ok (int_eq b data2)
        end
      else Ok false
  | _ => Ok false
  end.

(** The loop of [lookup_command] over the rules filed under the
    normalized status. *)
Fixpoint scan (status : Z) (channel data1 data2 : option Z)
         (rules : list KeyStroke.t) : result (option KeyStroke.t) :=
  match rules with
  | [] => Ok None
  | keystroke :: rest =>
      if match channel with
         | Some c => channel_ne (KeyStroke.channel keystroke) c
         | None => false
         end
      then scan status channel data1 data2 rest
      else if (status =? NOTE_ON) && data_eq (KeyStroke.data keystroke) data1
      then Ok (Some keystroke)
      else
        match pair_eq (KeyStroke.data keystroke) data1 data2 with
        | Raise e => Raise e
        | Ok true => Ok (Some keystroke)
        | Ok false => scan status channel data1 data2 rest
        end
  end.

(** [lookup_command] is a function of its arguments and of the rules, so
    the cache that decorates it does not change what it returns. *)
Definition lookup_command (self : t) (status : Z) (channel data1 data2 : option Z)
  : result (option KeyStroke.t) :=
  '(status, data2) ← normalize status data2;
  scan status channel data1 data2 (default [] (keystrokes self !! Some status)).

(** *** __call__ *)

(** The first part of [__call__]: status, channel and data bytes of a
    message. *)
Definition decode (event : list Z) : result (Z * option Z * option Z * option Z) :=
  match event with
  | [] => Raise IndexError
  | byte0 :: data =>
      let '(status, channel) :=
        if byte0 <? 0xF0
        then (Z.land byte0 0xF0, Some (Z.land byte0 0xF + 1))
        else (byte0, None) in
      Ok (status, channel, data !! 0%nat, data !! 1%nat)
  end.

(** The action type that [__call__] passes to [do_command]. *)
Definition action_type_of (status : Z) : Z :=
  let action_type := KEY_DOWN in
  let action_type := if status =? NOTE_OFF then KEY_UP else action_type in
  let action_type := if status =? CONTROLLER_CHANGE then KEY_DOWN_UP else action_type in
  action_type.

Section Handler.
Context {W : Type} {SK : SendKey W}.

(** *** do_command *)

Definition press (keystroke : string) : M W unit :=
  log INFO (MsgPress keystroke) ;;
  keycode ← call_sendKey (Call_SetKeyboardConsts keystroke) (SetKeyboardConsts keystroke);
  call_sendKey (Call_PressKey keycode) (PressKey keycode).

Definition release (keystroke : string) : M W unit :=
  log INFO (MsgRelease keystroke) ;;
  keycode ← call_sendKey (Call_SetKeyboardConsts keystroke) (SetKeyboardConsts keystroke);
  call_sendKey (Call_ReleaseKey keycode) (ReleaseKey keycode).

(** The body of the [try] statement of [do_command]. *)
Definition do_command_body (keystrokes : list string) (action_type : Z) : M W unit :=
  (if (action_type =? KEY_DOWN) || (action_type =? KEY_DOWN_UP)
   then for_each press keystrokes else mret tt) ;;
  (if action_type =? KEY_DOWN_UP
   then log INFO MsgDelay ;; emit (Sleep 10) else mret tt) ;;
  (if (action_type =? KEY_UP) || (action_type =? KEY_DOWN_UP)
   then for_each release keystrokes else mret tt).

Definition do_command (keystrokes : list string) (action_type : Z) : M W unit :=
  try_except (do_command_body keystrokes action_type)
             (fun e => log ERROR (MsgErrorCalling e)).

Definition call (self : t) (event : list Z) : M W unit :=
  '(status, channel, data1, data2) ← lift (decode event);
  log DEBUG (MsgEvent status channel data1 data2) ;;
  cmd ← lift (lookup_command self status channel data1 data2);
  match cmd with
  | Some cmd => do_command (KeyStroke.keys cmd) (action_type_of status)
  | None => log DEBUG MsgNoCmd
  end.

End Handler.

(** *** load_config *)

(** [isinstance(cmdspec, dict) and 'keys' in cmdspec] *)
Definition is_dict_with_keys (cmdspec : yaml) : bool :=
  match cmdspec with
  | YMap entries => existsb (fun e => String.eqb "keys" (fst e)) entries
  | _ => false
  end.

(** The [try] block of the loop: the rule built from [cmdspec], or [None]
    when neither branch of the conditional is taken and [cmd] keeps the
    value it had. *)
Definition build (cmdspec : yaml) : result (option KeyStroke.t) :=
  if is_dict_with_keys cmdspec then
    match cmdspec with
    | YMap entries => Some <$> KeyStroke.of_kwargs entries
    | _ => Ok None
    end
  else
    n ← py_len cmdspec;
    if n >=? 2 then
      args ← py_iter cmdspec;
      Some <$> KeyStroke.of_args args
    else Ok None.

(** [STATUS_MAP.get(name.strip().lower())] *)
Definition status_of_name (name : string) : option Z :=
  STATUS_MAP !! PyStr.lower (PyStr.strip name).

(** [self.keystrokes.setdefault(status, []).append(cmd)] *)
Definition file_under (status : option Z) (cmd : KeyStroke.t)
           (keystrokes : gmap (option Z) (list KeyStroke.t))
  : gmap (option Z) (list KeyStroke.t) :=
  <[status := default [] (keystrokes !! status) ++ [cmd]]> keystrokes.

Section Loader.
Context {W : Type}.

(** The [else] block of the loop, for the rule [cmd]. *)
Definition file_rule (cmd : KeyStroke.t)
           (keystrokes : gmap (option Z) (list KeyStroke.t))
  : M W (gmap (option Z) (list KeyStroke.t)) :=
  match KeyStroke.status cmd with
  | YStr s =>
      let status := status_of_name s in
      match status with
      | None =>
          match PyStr.int s with
          | Some _ => mret tt
          | None => log ERROR (MsgUnknownStatus s)
          end
      | Some _ => mret tt
      end ;;
      log DEBUG (MsgConfig (KeyStroke.name cmd) (KeyStroke.description cmd)
                           (KeyStroke.keys cmd)) ;;
      mret (file_under status cmd keystrokes)
  | _ => raise AttributeError
  end.

(** The loop over the entries of the file.  [cmd] is the local variable
    of that name: unbound at first, and left as it is by an entry that
    assigns nothing to it. *)
Fixpoint load_entries (data : list yaml) (cmd : option KeyStroke.t)
         (keystrokes : gmap (option Z) (list KeyStroke.t))
  : M W (gmap (option Z) (list KeyStroke.t)) :=
  match data with
  | [] => mret keystrokes
  | cmdspec :: rest =>
      match build cmdspec with
      | Raise (TypeError as exc) | Raise (ValueError as exc) =>
          log DEBUG (MsgCmdspec cmdspec) ;;
          raise (IOError (InvalidCommandSpecification exc))
      | Raise e => raise e
      | Ok assigned =>
          match (match assigned with Some c => Some c | None => cmd end) with
          | None => raise UnboundLocalError
          | Some c =>
              keystrokes' ← file_rule c keystrokes;
              load_entries rest (Some c) keystrokes'
          end
      end
  end.

(** [config] is what the file [filename] holds, [None] when it does not
    exist.  The file is taken to be well-formed YAML. *)
Definition load_config (filename : string) (config : option yaml)
           (keystrokes : gmap (option Z) (list KeyStroke.t))
  : M W (gmap (option Z) (list KeyStroke.t)) :=
  match config with
  | None => raise (IOError (ConfigFileNotFound filename))
  | Some data =>
      items ← lift (py_iter data);
      load_entries items None keystrokes
  end.

(** [MidiInputHandler.__init__] *)
Definition init (port : string) (filename : string) (config : option yaml)
  : M W t :=
  keystrokes ← load_config filename config ∅;
  mret (mk port keystrokes).

End Loader.

End MidiInputHandler.

(** ** main *)

(** What [main] returns when the port cannot be opened: the exception,
    formatted into ["Could not open MIDI input: %s"]. *)
Inductive exit_message : Type :=
| CouldNotOpenMidiInput (exc : exn).

(** [main], from the call of [open_midiinput] to the main loop.
    [opened] is what [open_midiinput] does: it returns the name of the port
    or raises.  [filename] is the argument [CONFIG] and [config] what that
    file holds.  The value returned is the handler that has been attached
    when the main loop is entered, or else the value that [main] returns. *)
Definition main {W : Type} (opened : result string) (filename : string)
           (config : option yaml)
  : M W (MidiInputHandler.t + option exit_message) :=
  emit Call_open_midiinput ;;
  match opened with
  | Raise (IOError _ as exc) | Raise (ValueError as exc) =>
      mret (inr (Some (CouldNotOpenMidiInput exc)))
  | Raise EOFError | Raise KeyboardInterrupt => mret (inr None)
  | Raise e => raise e
  | Ok port_name =>
      log DEBUG MsgAttaching ;;
      handler ← MidiInputHandler.init port_name filename config;
      emit Call_set_callback ;;
      log INFO MsgMainLoop ;;
      mret (inl handler)
  end.

(** ** The action sequences of the specification *)

(** The three action types of the specification, the one it derives from
    the status of the triggering event, and the sequence of steps it gives
    for each.  These follow the words of the specification; the theorems
    compare them with [action_type_of] and [do_command]. *)
Inductive action : Type := PressOnly | ReleaseOnly | PressThenRelease.

Definition spec_action (status : Z) : action :=
  if status =? NOTE_OFF then ReleaseOnly
  else if status =? CONTROLLER_CHANGE then PressThenRelease
  else PressOnly.

(** The constant of the program for an action type. *)
Definition code_of (a : action) : Z :=
  match a with
  | PressOnly => KEY_DOWN
  | ReleaseOnly => KEY_UP
  | PressThenRelease => KEY_DOWN_UP
  end.

Definition spec_sequence {W} {SK : SendKey W} (a : action) (keys : list string)
  : M W unit :=
  match a with
  | PressOnly => for_each MidiInputHandler.press keys
  | ReleaseOnly => for_each MidiInputHandler.release keys
  | PressThenRelease =>
      for_each MidiInputHandler.press keys ;;
      log INFO MsgDelay ;;
      emit (Sleep 10) ;;
      for_each MidiInputHandler.release keys
  end.

(** The sequence, with a failure of the key injection caught and logged. *)
Definition spec_dispatch {W} {SK : SendKey W} (a : action) (keys : list string)
  : M W unit :=
  try_except (spec_sequence a keys) (fun e => log ERROR (MsgErrorCalling e)).

(** The state once [__call__] has logged the event it decoded. *)
Definition event_logged {W} (s : state W) (status : Z)
           (channel data1 data2 : option Z) : state W :=
  mkState (world s) (trace s ++ [Log DEBUG (MsgEvent status channel data1 data2)]).

(** ** Configurations, rules and bindings used in the examples *)

Module Sample.

(** [{status: programchange, channel: 16, data: 5, keys: "F1"}] *)
Definition programchange_5 : yaml :=
  YMap [("status", YStr "programchange"); ("channel", YInt 16);
        ("data", YInt 5); ("keys", YStr "F1")]%string.

(** [{status: controllerchange, channel: 16, data: "14 127", keys: "F2"}] *)
Definition controllerchange_14_127 : yaml :=
  YMap [("status", YStr "controllerchange"); ("channel", YInt 16);
        ("data", YStr "14 127"); ("keys", YStr "F2")]%string.

(** [{status: controllerchange, channel: 16, data: "14 65", keys: "F2"}] *)
Definition controllerchange_14_65 : yaml :=
  YMap [("status", YStr "controllerchange"); ("channel", YInt 16);
        ("data", YStr "14 65"); ("keys", YStr "F2")]%string.

(** [{status: "176", channel: 16, data: "14 65", keys: "F2"}] *)
Definition numeric_176 : yaml :=
  YMap [("status", YStr "176"); ("channel", YInt 16);
        ("data", YStr "14 65"); ("keys", YStr "F2")]%string.

(** [{status: sysex, channel: 1, data: 60, keys: "A"}] *)
Definition unknown_status : yaml :=
  YMap [("status", YStr "sysex"); ("channel", YInt 1);
        ("data", YInt 60); ("keys", YStr "A")]%string.


(** [{status: noteon, channel: 1, data: 60, keys: "B"}] *)
Definition noteon_60 : yaml :=
  YMap [("status", YStr "noteon"); ("channel", YInt 1);
        ("data", YInt 60); ("keys", YStr "B")]%string.

(** The rule built from [{status: noteon, data: 60, keys: "A"}]: no
    channel. *)
Definition noteon_any_channel : KeyStroke.t :=
  KeyStroke.mk (YStr "") (YStr "") (YStr "noteon") YNull ["A"%string] (DInt 60).

(** The rules that [KeyStroke] builds from the mappings above. *)
Definition rule_programchange_5 : KeyStroke.t :=
  KeyStroke.mk (YStr "") (YStr "") (YStr "programchange") (YInt 16)
               ["F1"%string] (DInt 5).

Definition rule_controllerchange_14_127 : KeyStroke.t :=
  KeyStroke.mk (YStr "") (YStr "") (YStr "controllerchange") (YInt 16)
               ["F2"%string] (DList [14; 127]).

Definition rule_controllerchange_14_65 : KeyStroke.t :=
  KeyStroke.mk (YStr "") (YStr "") (YStr "controllerchange") (YInt 16)
               ["F2"%string] (DList [14; 65]).

Definition rule_numeric_176 : KeyStroke.t :=
  KeyStroke.mk (YStr "") (YStr "") (YStr "176") (YInt 16)
               ["F2"%string] (DList [14; 65]).

Definition rule_noteoff_60 : KeyStroke.t :=
  KeyStroke.mk (YStr "") (YStr "") (YStr "noteoff") (YInt 1) ["A"%string] (DInt 60).

Definition rule_noteon_60 : KeyStroke.t :=
  KeyStroke.mk (YStr "") (YStr "") (YStr "noteon") (YInt 1) ["B"%string] (DInt 60).

Definition rule_cc_14_64 : KeyStroke.t :=
  KeyStroke.mk (YStr "") (YStr "") (YStr "controllerchange") (YInt 1)
               ["A"%string] (DList [14; 64]).

Definition rule_sysex : KeyStroke.t :=
  KeyStroke.mk (YStr "") (YStr "") (YStr "sysex") (YInt 1) ["A"%string] (DInt 60).

Definition rule_cc_14_63 : KeyStroke.t :=
  KeyStroke.mk (YStr "") (YStr "") (YStr "controllerchange") (YInt 1)
               ["A"%string] (DList [14; 63]).

Definition rule_cc_14_65 : KeyStroke.t :=
  KeyStroke.mk (YStr "") (YStr "") (YStr "controllerchange") (YInt 1)
               ["B"%string] (DList [14; 65]).

(** [{status: noteon, data: 60, keys: "A"}]: no channel. *)
Definition noteon_without_channel : yaml :=
  YMap [("status", YStr "noteon"); ("data", YInt 60); ("keys", YStr "A")]%string.

(** The name of the configuration file. *)
Definition filename : string := "rules.yaml".

Definition handler_of (rules : list (option Z * list KeyStroke.t))
  : MidiInputHandler.t :=
  MidiInputHandler.mk "MIDI input" (list_to_map rules).

(** A bindings file with scan codes for F1 and F2, and nothing sent. *)
Definition bound : state sendKey.os :=
  mkState (sendKey.mkOs (Some [("F1", "0x3B"); ("F2", "0x3C")]%string) []) [].

(** No bindings file. *)
Definition unbound : state sendKey.os :=
  mkState (sendKey.mkOs None []) [].

End Sample.

(** What the loop of [lookup_command] has tested when it returns the rule
    [r]. *)
Definition accepts (status : Z) (channel data1 data2 : option Z)
           (r : KeyStroke.t) : Prop :=
  match channel with
  | Some c => MidiInputHandler.channel_ne (KeyStroke.channel r) c = false
  | None => True
  end
  /\ ((status = NOTE_ON
       /\ MidiInputHandler.data_eq (KeyStroke.data r) data1 = true)
      \/ MidiInputHandler.pair_eq (KeyStroke.data r) data1 data2 = Ok true).

(** Every rule of the dictionary is filed under the key that
    [STATUS_MAP.get] gives for its status name. *)
Definition filed_by_status (ks : gmap (option Z) (list KeyStroke.t)) : Prop :=
  forall (k : option Z) (rules : list KeyStroke.t) (r : KeyStroke.t),
    ks !! k = Some rules -> r ∈ rules ->
    exists name : string,
      KeyStroke.status r = YStr name /\ MidiInputHandler.status_of_name name = k.

(** The computation [m] only adds to the trace. *)
Definition grows {W A : Type} (m : M W A) : Prop :=
  forall s : state W, exists tr : list effect, trace (snd (m s)) = trace s ++ tr.

(** What the loop of [lookup_command] has tested when it goes on to the
    next rule: the channel differs, or neither test on the data holds. *)
Definition passes_over (status : Z) (channel data1 data2 : option Z)
           (r : KeyStroke.t) : Prop :=
  (exists c : Z,
      channel = Some c
      /\ MidiInputHandler.channel_ne (KeyStroke.channel r) c = true)
  \/ (((status =? NOTE_ON)
        && MidiInputHandler.data_eq (KeyStroke.data r) data1 = false)
      /\ MidiInputHandler.pair_eq (KeyStroke.data r) data1 data2 = Ok false).

(** Every key of the mapping is a parameter of [KeyStroke]. *)
Definition only_parameters (entries : list (string * yaml)) : bool :=
  forallb (fun e => existsb (String.eqb (fst e)) KeyStroke.parameters) entries.

(** What the loader returns when it refuses the entry [cmdspec] in the
    state [s], for the exception [exc] of [KeyStroke]. *)
Definition refused {W : Type} (s : state W) (cmdspec : yaml) (exc : exn)
  : result (gmap (option Z) (list KeyStroke.t)) * state W :=
  (Raise (IOError (InvalidCommandSpecification exc)),
   mkState (world s) (trace s ++ [Log DEBUG (MsgCmdspec cmdspec)])).

(** The scan code that the bindings [key_binds] give for a key, when
    [SetKeyboardConsts] returns one: the key is bound and its value reads
    as a hexadecimal integer. *)
Definition scan_code (key_binds : list (string * string)) (panel_key : string)
  : option Z :=
  match sendKey.lookup panel_key key_binds with
  | Some v => PyStr.int16 v
  | None => None
  end.

(** The inputs that [PressKey] and [ReleaseKey] hand to [SendInput]. *)
Definition key_down (hexKeyCode : Z) : sendKey.KeyBdInput :=
  sendKey.mkInput 0 (sendKey.c_ushort hexKeyCode) 0x0008 0.

Definition key_up (hexKeyCode : Z) : sendKey.KeyBdInput :=
  sendKey.mkInput 0 (sendKey.c_ushort hexKeyCode) 0x000A 0.

(** The effect is a line of the log. *)
Definition is_log (e : effect) : Prop :=
  match e with
  | Log _ _ => True
  | _ => False
  end.

(** The computation [m] only writes to the log: it leaves the state behind
    [sendKey] as it is, and adds only log lines to the trace. *)
Definition logs_only {W A : Type} (m : M W A) : Prop :=
  forall s : state W,
    world (snd (m s)) = world s
    /\ exists tr : list effect,
        trace (snd (m s)) = trace s ++ tr /\ Forall is_log tr.

(** Every list that is the data of a rule of the dictionary has at least
    two integers. *)
Definition pairs_complete (ks : gmap (option Z) (list KeyStroke.t)) : Prop :=
  forall (k : option Z) (rules : list KeyStroke.t) (r : KeyStroke.t) (l : list Z),
    ks !! k = Some rules -> r ∈ rules -> KeyStroke.data r = DList l ->
    (2 <= length l)%nat.

(** * Properties *)

(** ** The string methods, on examples *)

Example split_two : PyStr.split " 14   127 " = ["14"; "127"]%string.
Proof. reflexivity. Qed.

Example split_blank : PyStr.split "  " = [].
Proof. reflexivity. Qed.

Example int_examples :
  PyStr.int " -1_0 " = Some (-10) /\ PyStr.int "1__0" = None
  /\ PyStr.int "" = None /\ PyStr.int "0x10" = None
  /\ PyStr.int16 "0x3C" = Some 60 /\ PyStr.int16 "ff" = Some 255
  /\ PyStr.int16 "0x" = None.
Proof. repeat split; reflexivity. Qed.

(** The separator 0x1c is white space for [strip] and [split], not for
    [int]. *)
Example int_separator :
  PyStr.int (String (ascii_of_nat 28) "176") = None
  /\ PyStr.int16 (String (ascii_of_nat 28) "3C") = None
  /\ PyStr.int (String (ascii_of_nat 11) "176 ") = Some 176
  /\ PyStr.strip (String (ascii_of_nat 28) "176") = "176"%string
  /\ PyStr.split (String (ascii_of_nat 28) "176") = ["176"%string].
Proof. repeat split; reflexivity. Qed.

Example eq_int_examples :
  eq_int (YFloat (Finite 1 0)) 1 = true /\ eq_int (YFloat (Finite 1 4)) 16 = true
  /\ eq_int (YFloat (Finite 3 (-1))) 1 = false /\ eq_int (YBool true) 1 = true
  /\ eq_int YNull 1 = false /\ eq_int (YStr "1") 1 = false.
Proof. repeat split; reflexivity. Qed.

Example strip_lower : PyStr.lower (PyStr.strip "  NoteOn ") = "noteon"%string.
Proof. reflexivity. Qed.

Example status_of_name_examples :
  MidiInputHandler.status_of_name " ControllerChange" = Some CONTROLLER_CHANGE
  /\ MidiInputHandler.status_of_name "176" = None.
Proof. split; vm_compute; reflexivity. Qed.

(** ** The loop of [lookup_command] *)

Section Scan.
Import MidiInputHandler.
Implicit Types (status : Z) (channel : option Z).
Implicit Types (rules : list KeyStroke.t) (r : KeyStroke.t).

Lemma scan_returns status channel (data1 data2 : option Z) rules r :
  scan status channel data1 data2 rules = Ok (Some r) ->
  r ∈ rules /\ accepts status channel data1 data2 r.
Proof.
  induction rules as [|k rest IH]; simpl; [discriminate|].
  destruct (match channel with Some c => _ | None => _ end) eqn:Hch.
  { intros [Hin Hacc]%IH. split; [by right | done]. }
  destruct ((status =? NOTE_ON) && data_eq (KeyStroke.data k) data1) eqn:Hone.
  { intros [= <-]. apply andb_true_iff in Hone as [Hs%Z.eqb_eq Hd].
    split; [by left|]. split; [|by left].
    destruct channel; done. }
  destruct (pair_eq (KeyStroke.data k) data1 data2) as [[|]|] eqn:Hpair;
    [|by (intros [Hin Hacc]%IH; split; [by right|done])|discriminate].
  intros [= <-]. split; [by left|]. split; [|by right].
  destruct channel; done.
Qed.

Lemma channel_ne_false (c : yaml) (n : Z) :
  channel_ne c n = false -> eq_int c n = true.
Proof. unfold channel_ne. by intros H%negb_false_iff. Qed.

Lemma pair_eq_true d (data1 data2 : option Z) :
  pair_eq d data1 data2 = Ok true ->
  exists a b rest, d = DList (a :: b :: rest) /\ data1 = Some a /\ data2 = Some b.
Proof.
  destruct d as [| |[|a [|b rest]]]; simpl; try discriminate.
  - destruct (int_eq a data1); discriminate.
  - destruct data1 as [x|]; simpl; [|discriminate].
    destruct (a =? x) eqn:Ha; [|discriminate].
    destruct data2 as [y|]; simpl; [|discriminate].
    intros [= Hb]. apply Z.eqb_eq in Ha, Hb. subst. eauto 6.
Qed.

(** A rule is skipped when the event has a channel and the channel of the
    rule is not that integer. *)
Lemma scan_skips status c (data1 data2 : option Z) r rules :
  eq_int (KeyStroke.channel r) c = false ->
  scan status (Some c) data1 data2 (r :: rules)
  = scan status (Some c) data1 data2 rules.
Proof. intros Hne. simpl. unfold channel_ne. by rewrite Hne. Qed.

(** A rule that passes the tests is returned when the loop reaches it. *)
Lemma scan_accepts_head status channel (data1 data2 : option Z) r rules :
  accepts status channel data1 data2 r ->
  scan status channel data1 data2 (r :: rules) = Ok (Some r).
Proof.
  intros [Hch Hdata]. simpl.
  replace (match channel with
           | Some c => channel_ne (KeyStroke.channel r) c
           | None => false
           end) with false by (by destruct channel).
  destruct Hdata as [[Hs Hd]|Hp].
  - by rewrite Hs, Hd.
  - rewrite Hp.
    by destruct ((status =? NOTE_ON) && data_eq (KeyStroke.data r) data1).
Qed.

End Scan.

Lemma normalize_status status data2 status' data2' :
  MidiInputHandler.normalize status data2 = Ok (status', data2') ->
  status' <> NOTE_OFF /\ (status = NOTE_OFF /\ status' = NOTE_ON \/ status' = status).
Proof.
  unfold MidiInputHandler.normalize.
  destruct (status =? NOTE_OFF) eqn:Hoff.
  { intros [= <- <-]. apply Z.eqb_eq in Hoff. split; [done | by left]. }
  apply Z.eqb_neq in Hoff.
  destruct (status =? CONTROLLER_CHANGE); [destruct data2 as [d|]; [|discriminate];
    destruct (d <? 64); [|destruct (d >? 64)]|]; intros [= <- <-]; split; auto.
Qed.

(** Unfolding of [lookup_command] into its two steps. *)
Lemma lookup_command_unfold self status channel data1 data2 :
  MidiInputHandler.lookup_command self status channel data1 data2
  = match MidiInputHandler.normalize status data2 with
    | Ok (status', data2') =>
        MidiInputHandler.scan status' channel data1 data2'
          (default [] (MidiInputHandler.keystrokes self !! Some status'))
    | Raise e => Raise e
    end.
Proof.
  unfold MidiInputHandler.lookup_command, mbind, result_bind, rbind.
  destruct (MidiInputHandler.normalize status data2) as [[? ?]|]; reflexivity.
Qed.

(** ** C4: the buckets of a controller change *)

(** The value that the lookup compares with the second integer of a rule,
    for a controller change of value [d]. *)
Lemma controller_change_lookup (self : MidiInputHandler.t)
      (channel data1 : option Z) (d bucket : Z) :
  (d < 64 /\ bucket = 63) \/ (d > 64 /\ bucket = 65) \/ (d = 64 /\ bucket = 64) ->
  MidiInputHandler.lookup_command self CONTROLLER_CHANGE channel data1 (Some d)
  = MidiInputHandler.scan CONTROLLER_CHANGE channel data1 (Some bucket)
      (default [] (MidiInputHandler.keystrokes self !! Some CONTROLLER_CHANGE)).
Proof.
  intros Hd. rewrite lookup_command_unfold. unfold MidiInputHandler.normalize.
  simpl. destruct (Z.ltb_spec d 64); [|destruct (Z.gtb_spec d 64)].
  - assert (bucket = 63) as -> by lia. reflexivity.
  - assert (bucket = 65) as -> by lia. reflexivity.
  - assert (d = 64 /\ bucket = 64) as [-> ->] by lia. reflexivity.
Qed.

(** C4: for a controller change, every value below 64 becomes 63, every
    value above 64 becomes 65, and 64 stays, and the lookup works on that
    bucket: it returns what it returns for the bucket; a rule it returns has
    the bucket as the second integer of its data; and the first rule filed
    under the status is returned when its channel and data accept the
    bucket.  So a rule returned for the value 64 has 64 as the second
    integer of its data: it is a rule neither for bucket 63 nor for bucket
    65. *)
Theorem controller_change_buckets :
  (forall d, d < 64 ->
     MidiInputHandler.normalize CONTROLLER_CHANGE (Some d)
     = Ok (CONTROLLER_CHANGE, Some 63))
  /\ (forall d, d > 64 ->
       MidiInputHandler.normalize CONTROLLER_CHANGE (Some d)
       = Ok (CONTROLLER_CHANGE, Some 65))
  /\ MidiInputHandler.normalize CONTROLLER_CHANGE (Some 64)
     = Ok (CONTROLLER_CHANGE, Some 64)
  /\ (forall self channel data1 r,
       MidiInputHandler.lookup_command self CONTROLLER_CHANGE channel data1 (Some 64)
       = Ok (Some r) ->
       exists a rest,
         KeyStroke.data r = DList (a :: 64 :: rest) /\ data1 = Some a)
  /\ (forall (self : MidiInputHandler.t) (channel data1 : option Z) (d bucket : Z),
       (d < 64 /\ bucket = 63) \/ (d > 64 /\ bucket = 65)
       \/ (d = 64 /\ bucket = 64) ->
       MidiInputHandler.lookup_command self CONTROLLER_CHANGE channel data1 (Some d)
       = MidiInputHandler.lookup_command self CONTROLLER_CHANGE channel data1
                                         (Some bucket)
       /\ (forall r : KeyStroke.t,
             MidiInputHandler.lookup_command self CONTROLLER_CHANGE channel data1
                                             (Some d) = Ok (Some r) ->
             exists (a : Z) (rest : list Z),
               KeyStroke.data r = DList (a :: bucket :: rest) /\ data1 = Some a)
       /\ (forall (r : KeyStroke.t) (rest : list KeyStroke.t),
             MidiInputHandler.keystrokes self !! Some CONTROLLER_CHANGE
             = Some (r :: rest) ->
             accepts CONTROLLER_CHANGE channel data1 (Some bucket) r ->
             MidiInputHandler.lookup_command self CONTROLLER_CHANGE channel data1
                                             (Some d) = Ok (Some r))).
Proof.
  split; [|split; [|split; [|split]]].
  - intros d Hd. unfold MidiInputHandler.normalize. simpl.
    destruct (Z.ltb_spec d 64); [done | lia].
  - intros d Hd. unfold MidiInputHandler.normalize. simpl.
    destruct (Z.ltb_spec d 64); [lia|].
    destruct (Z.gtb_spec d 64); [done | lia].
  - reflexivity.
  - intros self channel data1 r. rewrite lookup_command_unfold. simpl.
    intros [_ [_ [[Hs _]|Hp]]]%scan_returns; [discriminate|].
    apply pair_eq_true in Hp as (a & b & rest & Hd & H1 & [= <-]). eauto.
  - intros self channel data1 d bucket Hd.
    rewrite (controller_change_lookup self channel data1 d bucket Hd).
    split; [|split].
    + symmetry. apply controller_change_lookup. lia.
    + intros r [_ [_ [[Hs _]|Hp]]]%scan_returns; [discriminate|].
      apply pair_eq_true in Hp as (a & b & rest & Hr & H1 & [= <-]). eauto.
    + intros r rest -> Hacc. by apply scan_accepts_head.
Qed.

Lemma controller_change_buckets_witness :
  MidiInputHandler.normalize CONTROLLER_CHANGE (Some 0)
  = Ok (CONTROLLER_CHANGE, Some 63)
  /\ MidiInputHandler.normalize CONTROLLER_CHANGE (Some 127)
     = Ok (CONTROLLER_CHANGE, Some 65)
  /\ (exists a rest,
        KeyStroke.data Sample.rule_cc_14_64 = DList (a :: 64 :: rest)
        /\ Some 14 = Some a)
  /\ MidiInputHandler.lookup_command
       (Sample.handler_of
          [(Some CONTROLLER_CHANGE, [Sample.rule_cc_14_63; Sample.rule_cc_14_65])])
       CONTROLLER_CHANGE (Some 1) (Some 14) (Some 0)
     = Ok (Some Sample.rule_cc_14_63)
  /\ (exists (a : Z) (rest : list Z),
        KeyStroke.data Sample.rule_cc_14_65 = DList (a :: 65 :: rest)
        /\ Some 14 = Some a).
Proof.
  destruct controller_change_buckets as (Hlow & Hhigh & _ & Hmid & Hlookup).
  split; [apply Hlow; lia|]. split; [apply Hhigh; lia|].
  split.
  { apply (Hmid (Sample.handler_of
                   [(Some CONTROLLER_CHANGE, [Sample.rule_cc_14_64])]) (Some 1)).
    vm_compute. reflexivity. }
  split.
  - destruct (Hlookup
                (Sample.handler_of
                   [(Some CONTROLLER_CHANGE,
                     [Sample.rule_cc_14_63; Sample.rule_cc_14_65])])
                (Some 1) (Some 14) 0 63) as (_ & _ & Hfirst); [lia|].
    apply (Hfirst Sample.rule_cc_14_63 [Sample.rule_cc_14_65]).
    + vm_compute. reflexivity.
    + split; [reflexivity | right; reflexivity].
  - destruct (Hlookup
                (Sample.handler_of
                   [(Some CONTROLLER_CHANGE,
                     [Sample.rule_cc_14_63; Sample.rule_cc_14_65])])
                (Some 1) (Some 14) 127 65) as (_ & Hret & _); [lia|].
    apply Hret. vm_compute. reflexivity.
Defined.

(** ** C5: note-off is looked up as note-on *)

(** C5: whatever the rules, the channel and the data bytes, the lookup for
    a note-off returns what the lookup for a note-on returns: the same
    rule, no rule, or the same exception. *)
Theorem lookup_note_off_as_note_on self channel data1 data2 :
  MidiInputHandler.lookup_command self NOTE_OFF channel data1 data2
  = MidiInputHandler.lookup_command self NOTE_ON channel data1 data2.
Proof. rewrite !lookup_command_unfold. reflexivity. Qed.

(** ** Computations in [M] *)

Ltac unfold_M :=
  unfold mbind, M_bind, mret, M_ret, log, emit, raise, lift, try_except.

Lemma M_bind_assoc {W A B C} (m : M W A) (f : A -> M W B) (g : B -> M W C)
      (s : state W) :
  ((m ≫= f) ≫= g) s = (m ≫= (fun a => f a ≫= g)) s.
Proof. unfold_M. destruct (m s) as [[a|e] s']; reflexivity. Qed.

Lemma M_bind_ext {W A B} (m : M W A) (f g : A -> M W B) (s : state W) :
  (forall a s', f a s' = g a s') -> (m ≫= f) s = (m ≫= g) s.
Proof. intros H. unfold_M. destruct (m s) as [[a|e] s']; [apply H | reflexivity]. Qed.

(** ** C6: the action type comes from the status of the event *)

Section Dispatch.
Context {W : Type} {SK : SendKey W}.
Import MidiInputHandler.

Lemma action_type_of_spec (status : Z) :
  action_type_of status = code_of (spec_action status).
Proof.
  unfold action_type_of, spec_action.
  destruct (status =? NOTE_OFF) eqn:Hoff, (status =? CONTROLLER_CHANGE) eqn:Hcc;
    try reflexivity.
  apply Z.eqb_eq in Hoff, Hcc. subst. discriminate.
Qed.

Lemma do_command_body_spec (a : action) (keys : list string) (s : state W) :
  do_command_body keys (code_of a) s = spec_sequence a keys s.
Proof.
  destruct a; unfold do_command_body, spec_sequence; simpl.
  - unfold_M. destruct (for_each press keys s) as [[[]|e] s']; reflexivity.
  - reflexivity.
  - apply M_bind_ext. intros [] s'. apply M_bind_assoc.
Qed.

(** [__call__] on an event for which the lookup returns [cmd]. *)
Lemma call_matched self event status channel data1 data2 cmd (s : state W) :
  decode event = Ok (status, channel, data1, data2) ->
  lookup_command self status channel data1 data2 = Ok (Some cmd) ->
  call self event s
  = do_command (KeyStroke.keys cmd) (action_type_of status)
               (event_logged s status channel data1 data2).
Proof.
  intros Hdec Hlook. unfold call. unfold_M. rewrite Hdec. simpl.
  by rewrite Hlook.
Qed.

(** [__call__] on an event for which the lookup returns no rule. *)
Lemma call_unmatched self event status channel data1 data2 (s : state W) :
  decode event = Ok (status, channel, data1, data2) ->
  lookup_command self status channel data1 data2 = Ok None ->
  call self event s
  = (Ok tt,
     mkState (world s)
       (trace s ++ [Log DEBUG (MsgEvent status channel data1 data2);
                    Log DEBUG MsgNoCmd])).
Proof.
  intros Hdec Hlook. unfold call. unfold_M. rewrite Hdec. simpl.
  rewrite Hlook. simpl. by rewrite <- app_assoc.
Qed.

Lemma do_command_spec (a : action) (keys : list string) (s : state W) :
  do_command keys (code_of a) s = spec_dispatch a keys s.
Proof.
  unfold do_command, spec_dispatch, try_except.
  by rewrite do_command_body_spec.
Qed.

(** C6: when a rule is matched, the action depends on the status that
    was decoded from the event, not on the status the lookup normalizes
    it to: the keys of the rule are released for a note-off, pressed and
    released after the delay for a controller change, and pressed for
    every other status. *)
Theorem action_type_from_event_status
        self event status channel data1 data2 cmd (s : state W) :
  decode event = Ok (status, channel, data1, data2) ->
  lookup_command self status channel data1 data2 = Ok (Some cmd) ->
  call self event s
  = do_command (KeyStroke.keys cmd) (action_type_of status)
               (event_logged s status channel data1 data2)
  /\ (status = NOTE_OFF ->
      action_type_of status = KEY_UP
      /\ call self event s
         = spec_dispatch ReleaseOnly (KeyStroke.keys cmd)
                         (event_logged s status channel data1 data2))
  /\ (status = CONTROLLER_CHANGE ->
      action_type_of status = KEY_DOWN_UP
      /\ call self event s
         = spec_dispatch PressThenRelease (KeyStroke.keys cmd)
                         (event_logged s status channel data1 data2))
  /\ (status <> NOTE_OFF -> status <> CONTROLLER_CHANGE ->
      action_type_of status = KEY_DOWN
      /\ call self event s
         = spec_dispatch PressOnly (KeyStroke.keys cmd)
                         (event_logged s status channel data1 data2)).
Proof.
  intros Hdec Hlook.
  pose proof (call_matched _ _ _ _ _ _ _ s Hdec Hlook) as Hcall.
  split; [done|].
  rewrite Hcall, action_type_of_spec, do_command_spec. unfold spec_action.
  split; [intros ->; split; reflexivity|].
  split; [intros ->; split; reflexivity|].
  intros Hoff Hcc. destruct (Z.eqb_spec status NOTE_OFF); [done|].
  by destruct (Z.eqb_spec status CONTROLLER_CHANGE).
Qed.

(** ** C9: exceptions of the key injection stay inside [do_command] *)

(** C9: whatever [sendKey] does, [do_command] returns normally; when a
    call into [sendKey] raises, at any key and in any phase, the steps
    that follow are not run and the exception is logged; and [__call__]
    returns normally for every event that is matched to a rule. *)
Theorem do_command_catches (keystrokes : list string) (action_type : Z)
        (s : state W) :
  (exists s', do_command keystrokes action_type s = (Ok tt, s'))
  /\ (forall e s',
       do_command_body keystrokes action_type s = (Raise e, s') ->
       do_command keystrokes action_type s
       = (Ok tt, mkState (world s') (trace s' ++ [Log ERROR (MsgErrorCalling e)])))
  /\ (forall self event status channel data1 data2 cmd,
       decode event = Ok (status, channel, data1, data2) ->
       lookup_command self status channel data1 data2 = Ok (Some cmd) ->
       exists s', call self event s = (Ok tt, s')).
Proof.
  assert (Hret : forall k a (s0 : state W), exists s', do_command k a s0 = (Ok tt, s')).
  { intros k a s0. unfold do_command, try_except.
    destruct (do_command_body k a s0) as [[[]|e] s']; unfold_M; eauto. }
  split; [apply Hret|]. split.
  - intros e s' Hbody. unfold do_command, try_except. rewrite Hbody. reflexivity.
  - intros self event status channel data1 data2 cmd Hdec Hlook.
    rewrite (call_matched _ _ _ _ _ _ _ s Hdec Hlook). apply Hret.
Qed.

End Dispatch.

Lemma action_type_from_event_status_witness :
  MidiInputHandler.call
    (Sample.handler_of [(Some NOTE_ON, [Sample.rule_noteon_60])])
    [0x80; 60; 0] Sample.bound
  = MidiInputHandler.do_command ["B"%string] KEY_UP
      (event_logged Sample.bound NOTE_OFF (Some 1) (Some 60) (Some 0)).
Proof.
  pose proof (action_type_from_event_status
                (Sample.handler_of [(Some NOTE_ON, [Sample.rule_noteon_60])])
                [0x80; 60; 0] NOTE_OFF (Some 1) (Some 60) (Some 0)
                Sample.rule_noteon_60 Sample.bound) as H.
  destruct H as [H _]; [vm_compute; reflexivity | vm_compute; reflexivity |].
  exact H.
Defined.

Lemma do_command_catches_witness :
  MidiInputHandler.do_command ["F1"%string] KEY_DOWN Sample.unbound
  = (Ok tt,
     mkState (sendKey.mkOs None [])
       [Log INFO (MsgPress "F1"); Call_SetKeyboardConsts "F1";
        Log ERROR (MsgErrorCalling (IOError (NoSuchFile "keybindings.json")))]).
Proof.
  destruct (do_command_catches ["F1"%string] KEY_DOWN Sample.unbound)
    as (_ & Hcaught & _).
  apply (Hcaught (IOError (NoSuchFile "keybindings.json"))
           (mkState (sendKey.mkOs None [])
              [Log INFO (MsgPress "F1"); Call_SetKeyboardConsts "F1"])).
  vm_compute. reflexivity.
Defined.

(** ** C1: a rule without a channel *)

(** C1 fails on the code.  The rule of the configuration
    [{status: noteon, data: 60, keys: "A"}], which has no channel, is
    loaded and filed under [NOTE_ON]; the note-on [0x90, 60, 100] on
    channel 1 has its status and its data, but the lookup returns no rule
    and [__call__] calls nothing in [sendKey]: the loop skips a rule when
    the event has a channel and the channel of the rule is not that
    integer, and [None] is not. *)
Theorem absent_channel_rule_never_fires {W : Type} {SK : SendKey W}
        (filename : string) (s0 s : state W) :
  MidiInputHandler.init "MIDI input" filename
                        (Some (YSeq [Sample.noteon_without_channel])) s0
  = (Ok (Sample.handler_of [(Some NOTE_ON, [Sample.noteon_any_channel])]),
     mkState (world s0)
             (trace s0 ++ [Log DEBUG (MsgConfig (YStr "") (YStr "") ["A"%string])]))
  /\ MidiInputHandler.decode [0x90; 60; 100] = Ok (NOTE_ON, Some 1, Some 60, Some 100)
  /\ KeyStroke.channel Sample.noteon_any_channel = YNull
  /\ MidiInputHandler.data_eq (KeyStroke.data Sample.noteon_any_channel) (Some 60)
     = true
  /\ MidiInputHandler.lookup_command
       (Sample.handler_of [(Some NOTE_ON, [Sample.noteon_any_channel])])
       NOTE_ON (Some 1) (Some 60) (Some 100) = Ok None
  /\ MidiInputHandler.call
       (Sample.handler_of [(Some NOTE_ON, [Sample.noteon_any_channel])])
       [0x90; 60; 100] s
     = (Ok tt,
        mkState (world s)
          (trace s ++ [Log DEBUG (MsgEvent NOTE_ON (Some 1) (Some 60) (Some 100));
                       Log DEBUG MsgNoCmd])).
Proof.
  split; [vm_compute; reflexivity|]. split; [reflexivity|].
  split; [reflexivity|]. split; [reflexivity|].
  split; [vm_compute; reflexivity|].
  apply call_unmatched; vm_compute; reflexivity.
Qed.

(** ** C2: the program change scenario *)

(** A message of two bytes is matched to no rule unless it is a note-on or
    a note-off: a single integer is compared with [data1] under [NOTE_ON]
    only, and a pair needs [data2]. *)
Lemma two_byte_message_not_matched (self : MidiInputHandler.t) (status : Z)
      (channel data1 : option Z) (r : KeyStroke.t) :
  status <> NOTE_ON -> status <> NOTE_OFF ->
  MidiInputHandler.lookup_command self status channel data1 None <> Ok (Some r).
Proof.
  intros Hon Hoff. rewrite lookup_command_unfold.
  destruct (MidiInputHandler.normalize status None) as [[status' data2']|] eqn:Hn;
    [|discriminate].
  assert (status' = status /\ data2' = None) as [-> ->].
  { revert Hn. unfold MidiInputHandler.normalize.
    destruct (Z.eqb_spec status NOTE_OFF); [done|].
    destruct (status =? CONTROLLER_CHANGE); [discriminate|]. by intros [= <- <-]. }
  intros [_ [_ [[Hs _]|Hp]]]%scan_returns; [done|].
  apply pair_eq_true in Hp as (a & b & rest & _ & _ & Hnone). discriminate.
Qed.

(** C2 fails on the code.  The configuration is loaded and the bytes decode
    as the claim says, but the lookup returns no rule: the data of the rule
    is a single integer, which the loop compares with [data1] only when the
    status is [NOTE_ON].  [__call__] logs that there is no command and
    calls nothing in [sendKey]. *)
Theorem program_change_not_matched {W : Type} {SK : SendKey W}
        (filename : string) (s0 s : state W) :
  MidiInputHandler.init "MIDI input" filename (Some (YSeq [Sample.programchange_5])) s0
  = (Ok (Sample.handler_of [(Some PROGRAM_CHANGE, [Sample.rule_programchange_5])]),
     mkState (world s0) (trace s0 ++ [Log DEBUG (MsgConfig (YStr "") (YStr "") ["F1"%string])]))
  /\ MidiInputHandler.decode [0xCF; 0x05] = Ok (PROGRAM_CHANGE, Some 16, Some 5, None)
  /\ MidiInputHandler.lookup_command
       (Sample.handler_of [(Some PROGRAM_CHANGE, [Sample.rule_programchange_5])])
       PROGRAM_CHANGE (Some 16) (Some 5) None = Ok None
  /\ MidiInputHandler.call
       (Sample.handler_of [(Some PROGRAM_CHANGE, [Sample.rule_programchange_5])])
       [0xCF; 0x05] s
     = (Ok tt,
        mkState (world s)
          (trace s ++ [Log DEBUG (MsgEvent PROGRAM_CHANGE (Some 16) (Some 5) None);
                       Log DEBUG MsgNoCmd])).
Proof.
  split; [vm_compute; reflexivity|]. split; [reflexivity|].
  split; [vm_compute; reflexivity|].
  apply call_unmatched; vm_compute; reflexivity.
Qed.

(** ** C3: the controller change scenario *)

(** C3, as stated, fails: the value 127 of the event becomes 65, the rule
    still has 127, and no rule is returned; nothing is pressed. *)
Lemma controller_change_127_not_matched :
  MidiInputHandler.init "MIDI input" Sample.filename (Some (YSeq [Sample.controllerchange_14_127]))
                        Sample.bound
  = (Ok (Sample.handler_of
           [(Some CONTROLLER_CHANGE, [Sample.rule_controllerchange_14_127])]),
     mkState (world Sample.bound)
             [Log DEBUG (MsgConfig (YStr "") (YStr "") ["F2"%string])])
  /\ MidiInputHandler.decode [0xBF; 0x0E; 0x7F]
     = Ok (CONTROLLER_CHANGE, Some 16, Some 14, Some 127)
  /\ MidiInputHandler.normalize CONTROLLER_CHANGE (Some 127)
     = Ok (CONTROLLER_CHANGE, Some 65)
  /\ MidiInputHandler.lookup_command
       (Sample.handler_of
          [(Some CONTROLLER_CHANGE, [Sample.rule_controllerchange_14_127])])
       CONTROLLER_CHANGE (Some 16) (Some 14) (Some 127) = Ok None
  /\ MidiInputHandler.call
       (Sample.handler_of
          [(Some CONTROLLER_CHANGE, [Sample.rule_controllerchange_14_127])])
       [0xBF; 0x0E; 0x7F] Sample.bound
     = (Ok tt,
        mkState (world Sample.bound)
          [Log DEBUG (MsgEvent CONTROLLER_CHANGE (Some 16) (Some 14) (Some 127));
           Log DEBUG MsgNoCmd]).
Proof. repeat split; vm_compute; reflexivity. Qed.

(** A rule returned for a controller change has a bucket, 63, 64 or 65, as
    the second integer of its data. *)
Lemma controller_change_rule_bucket (self : MidiInputHandler.t)
      (channel data1 data2 : option Z) (r : KeyStroke.t) :
  MidiInputHandler.lookup_command self CONTROLLER_CHANGE channel data1 data2
  = Ok (Some r) ->
  exists (a b : Z) (rest : list Z),
    KeyStroke.data r = DList (a :: b :: rest) /\ (b = 63 \/ b = 64 \/ b = 65).
Proof.
  rewrite lookup_command_unfold. unfold MidiInputHandler.normalize. simpl.
  destruct data2 as [d|]; [|discriminate].
  assert (Hscan : forall b' : Z,
             b' = 63 \/ b' = 64 \/ b' = 65 ->
             MidiInputHandler.scan CONTROLLER_CHANGE channel data1 (Some b')
               (default [] (MidiInputHandler.keystrokes self !! Some CONTROLLER_CHANGE))
             = Ok (Some r) ->
             exists (a b : Z) (rest : list Z),
               KeyStroke.data r = DList (a :: b :: rest)
               /\ (b = 63 \/ b = 64 \/ b = 65)).
  { intros b' Hb' [_ [_ [[Hs _]|Hp]]]%scan_returns; [discriminate|].
    apply pair_eq_true in Hp as (a & b & rest & Hd & _ & [= <-]). eauto. }
  destruct (Z.ltb_spec d 64); [apply Hscan; auto|].
  destruct (Z.gtb_spec d 64); [apply Hscan; auto|].
  assert (d = 64) as -> by lia. apply Hscan; auto.
Qed.

(** C3, amended: with the data ["14 65"] in the rule, the bytes
    [0xBF, 0x0E, 0x7F] are matched to it (127 becomes 65), and when the
    bindings file gives a scan code for F2 the dispatch presses F2, waits
    10 ms, then releases F2.  No rule is returned for a controller change
    unless the second integer of its data is a bucket: not the rule with
    the data ["14 127"]. *)
Theorem controller_change_65_stroke
        (key_binds : list (string * string)) (sent : list sendKey.KeyBdInput)
        (tr : list effect) (v : string) (code : Z) (filename : string) :
  sendKey.lookup "F2" key_binds = Some v ->
  PyStr.int16 v = Some code ->
  MidiInputHandler.init "MIDI input" filename (Some (YSeq [Sample.controllerchange_14_65]))
                        (mkState (sendKey.mkOs (Some key_binds) sent) tr)
  = (Ok (Sample.handler_of
           [(Some CONTROLLER_CHANGE, [Sample.rule_controllerchange_14_65])]),
     mkState (sendKey.mkOs (Some key_binds) sent)
             (tr ++ [Log DEBUG (MsgConfig (YStr "") (YStr "") ["F2"%string])]))
  /\ MidiInputHandler.normalize CONTROLLER_CHANGE (Some 127)
     = Ok (CONTROLLER_CHANGE, Some 65)
  /\ MidiInputHandler.lookup_command
       (Sample.handler_of
          [(Some CONTROLLER_CHANGE, [Sample.rule_controllerchange_14_65])])
       CONTROLLER_CHANGE (Some 16) (Some 14) (Some 127)
     = Ok (Some Sample.rule_controllerchange_14_65)
  /\ MidiInputHandler.call
       (Sample.handler_of
          [(Some CONTROLLER_CHANGE, [Sample.rule_controllerchange_14_65])])
       [0xBF; 0x0E; 0x7F] (mkState (sendKey.mkOs (Some key_binds) sent) tr)
     = (Ok tt,
        mkState
          (sendKey.mkOs (Some key_binds)
             (sent ++ [sendKey.mkInput 0 (sendKey.c_ushort code) 0x0008 0;
                       sendKey.mkInput 0 (sendKey.c_ushort code) 0x000A 0]))
          (tr ++ [Log DEBUG (MsgEvent CONTROLLER_CHANGE (Some 16) (Some 14) (Some 127));
                  Log INFO (MsgPress "F2");
                  Call_SetKeyboardConsts "F2"; Call_PressKey code;
                  Log INFO MsgDelay; Sleep 10;
                  Log INFO (MsgRelease "F2");
                  Call_SetKeyboardConsts "F2"; Call_ReleaseKey code]))
  /\ (forall (self : MidiInputHandler.t) (channel data1 data2 : option Z)
             (r : KeyStroke.t),
        MidiInputHandler.lookup_command self CONTROLLER_CHANGE channel data1 data2
        = Ok (Some r) ->
        r <> Sample.rule_controllerchange_14_127
        /\ exists (a b : Z) (rest : list Z),
             KeyStroke.data r = DList (a :: b :: rest)
             /\ (b = 63 \/ b = 64 \/ b = 65)).
Proof.
  intros Hbound Hcode.
  split; [vm_compute; reflexivity|]. split; [reflexivity|].
  split; [vm_compute; reflexivity|].
  split; [|intros self channel data1 data2 r Hr;
           destruct (controller_change_rule_bucket _ _ _ _ _ Hr)
             as (a & b & rest & Hd & Hb);
           split; [intros ->; injection Hd as _ <- _; lia | eauto 6]].
  rewrite (call_matched _ _ CONTROLLER_CHANGE (Some 16) (Some 14) (Some 127)
                        Sample.rule_controllerchange_14_65)
    by (vm_compute; reflexivity).
  change (MidiInputHandler.action_type_of CONTROLLER_CHANGE)
    with (code_of PressThenRelease).
  rewrite do_command_spec.
  unfold spec_dispatch, spec_sequence, try_except, event_logged. simpl.
  unfold MidiInputHandler.press, MidiInputHandler.release, call_sendKey.
  unfold_M. simpl. unfold sendKey.SetKeyboardConsts. simpl.
  rewrite Hbound, Hcode. simpl.
  unfold sendKey.SendInput. simpl.
  rewrite Hbound, Hcode. simpl.
  repeat rewrite <- app_assoc. reflexivity.
Qed.

Lemma controller_change_65_stroke_witness :
  MidiInputHandler.call
    (Sample.handler_of
       [(Some CONTROLLER_CHANGE, [Sample.rule_controllerchange_14_65])])
    [0xBF; 0x0E; 0x7F] Sample.bound
  = (Ok tt,
     mkState
       (sendKey.mkOs (Some [("F1", "0x3B"); ("F2", "0x3C")]%string)
          [sendKey.mkInput 0 0x3C 0x0008 0; sendKey.mkInput 0 0x3C 0x000A 0])
       [Log DEBUG (MsgEvent CONTROLLER_CHANGE (Some 16) (Some 14) (Some 127));
        Log INFO (MsgPress "F2");
        Call_SetKeyboardConsts "F2"; Call_PressKey 0x3C;
        Log INFO MsgDelay; Sleep 10;
        Log INFO (MsgRelease "F2");
        Call_SetKeyboardConsts "F2"; Call_ReleaseKey 0x3C]).
Proof.
  destruct (controller_change_65_stroke
              [("F1", "0x3B"); ("F2", "0x3C")]%string [] [] "0x3C" 0x3C
              Sample.filename)
    as (_ & _ & _ & H & _); [reflexivity | reflexivity |].
  exact H.
Defined.

(** ** Rules filed under no status code *)

(** The lookup reads the dictionary at status codes only. *)
Lemma lookup_command_codes (port : string)
      (ks ks' : gmap (option Z) (list KeyStroke.t))
      (status : Z) (channel data1 data2 : option Z) :
  (forall code : Z, ks' !! Some code = ks !! Some code) ->
  MidiInputHandler.lookup_command (MidiInputHandler.mk port ks')
                                  status channel data1 data2
  = MidiInputHandler.lookup_command (MidiInputHandler.mk port ks)
                                    status channel data1 data2.
Proof.
  intros Hcodes. rewrite !lookup_command_unfold. simpl.
  destruct (MidiInputHandler.normalize status data2) as [[status' data2']|];
    [|reflexivity].
  by rewrite Hcodes.
Qed.

Lemma file_under_other (status : option Z) (cmd : KeyStroke.t)
      (ks : gmap (option Z) (list KeyStroke.t)) (k : option Z) :
  k <> status -> MidiInputHandler.file_under status cmd ks !! k = ks !! k.
Proof. intros Hne. unfold MidiInputHandler.file_under. by rewrite lookup_insert_ne. Qed.

Lemma file_under_same (status : option Z) (cmd : KeyStroke.t)
      (ks : gmap (option Z) (list KeyStroke.t)) :
  MidiInputHandler.file_under status cmd ks !! status
  = Some (default [] (ks !! status) ++ [cmd]).
Proof. unfold MidiInputHandler.file_under. by rewrite lookup_insert_eq. Qed.

(** A rule whose status is a numeric string is filed under [None], silently:
    the integer that [int] returns is dropped. *)
Lemma numeric_status_filed_under_none {W : Type} (cmd : KeyStroke.t)
      (ks : gmap (option Z) (list KeyStroke.t)) (s : state W) (name : string) (n : Z) :
  KeyStroke.status cmd = YStr name ->
  MidiInputHandler.status_of_name name = None ->
  PyStr.int name = Some n ->
  MidiInputHandler.file_rule cmd ks s
  = (Ok (MidiInputHandler.file_under None cmd ks),
     mkState (world s)
       (trace s ++ [Log DEBUG (MsgConfig (KeyStroke.name cmd)
                                         (KeyStroke.description cmd)
                                         (KeyStroke.keys cmd))])).
Proof.
  intros Hst Hname Hint. unfold MidiInputHandler.file_rule.
  rewrite Hst, Hname, Hint. reflexivity.
Qed.

(** ** C8: a numeric status *)

(** C8 fails on the code.  The rule with status ["176"], the number of
    [CONTROLLER_CHANGE], is loaded without an error and filed under [None];
    its channel and data accept the event [0xBF, 0x0E, 0x7F], whose status
    is 176, but the lookup reads the rules filed under 176 and returns no
    rule. *)
Theorem numeric_status_not_matched {W : Type} {SK : SendKey W}
        (filename : string) (s0 s : state W) :
  PyStr.int "176" = Some CONTROLLER_CHANGE
  /\ MidiInputHandler.init "MIDI input" filename (Some (YSeq [Sample.numeric_176])) s0
     = (Ok (Sample.handler_of [(None, [Sample.rule_numeric_176])]),
        mkState (world s0)
                (trace s0 ++ [Log DEBUG (MsgConfig (YStr "") (YStr "") ["F2"%string])]))
  /\ accepts CONTROLLER_CHANGE (Some 16) (Some 14) (Some 65) Sample.rule_numeric_176
  /\ MidiInputHandler.lookup_command
       (Sample.handler_of [(None, [Sample.rule_numeric_176])])
       CONTROLLER_CHANGE (Some 16) (Some 14) (Some 127) = Ok None
  /\ MidiInputHandler.call
       (Sample.handler_of [(None, [Sample.rule_numeric_176])])
       [0xBF; 0x0E; 0x7F] s
     = (Ok tt,
        mkState (world s)
          (trace s ++ [Log DEBUG (MsgEvent CONTROLLER_CHANGE (Some 16) (Some 14) (Some 127));
                       Log DEBUG MsgNoCmd])).
Proof.
  split; [reflexivity|]. split; [vm_compute; reflexivity|].
  split; [split; [reflexivity | right; reflexivity]|].
  split; [vm_compute; reflexivity|].
  apply call_unmatched; vm_compute; reflexivity.
Qed.

(** ** C7: an unknown status name *)

Section Trace.
Context {W : Type}.

Lemma grows_ret {A : Type} (a : A) : grows (mret a : M W A).
Proof. intros s. exists []. simpl. by rewrite app_nil_r. Qed.

Lemma grows_raise {A : Type} (e : exn) : grows (raise e : M W A).
Proof. intros s. exists []. simpl. by rewrite app_nil_r. Qed.

Lemma grows_lift {A : Type} (r : result A) : grows (lift r : M W A).
Proof. intros s. exists []. simpl. by rewrite app_nil_r. Qed.

Lemma grows_emit (e : effect) : grows (emit e : M W unit).
Proof. intros s. by exists [e]. Qed.

Lemma grows_bind {A B : Type} (m : M W A) (f : A -> M W B) :
  grows m -> (forall a : A, grows (f a)) -> grows (m ≫= f).
Proof.
  intros Hm Hf s. unfold mbind, M_bind.
  destruct (Hm s) as [tr Htr]. destruct (m s) as [[a|e] s1]; simpl in Htr.
  - destruct (Hf a s1) as [tr' Htr']. exists (tr ++ tr').
    by rewrite Htr', Htr, app_assoc.
  - by exists tr.
Qed.

Lemma grows_file_rule (cmd : KeyStroke.t) (ks : gmap (option Z) (list KeyStroke.t)) :
  grows (MidiInputHandler.file_rule (W := W) cmd ks).
Proof.
  unfold MidiInputHandler.file_rule.
  destruct (KeyStroke.status cmd); try apply grows_raise.
  apply grows_bind; [|intros _; apply grows_bind;
                      [apply grows_emit | intros _; apply grows_ret]].
  destruct (MidiInputHandler.status_of_name s); [apply grows_ret|].
  destruct (PyStr.int s); [apply grows_ret | apply grows_emit].
Qed.

Lemma grows_load_entries (data : list yaml) :
  forall (cmd : option KeyStroke.t) (ks : gmap (option Z) (list KeyStroke.t)),
    grows (MidiInputHandler.load_entries (W := W) data cmd ks).
Proof.
  induction data as [|cmdspec rest IH]; intros cmd ks; simpl; [apply grows_ret|].
  destruct (MidiInputHandler.build cmdspec) as [assigned|e].
  - destruct (match assigned with Some c => Some c | None => cmd end);
      [|apply grows_raise].
    apply grows_bind; [apply grows_file_rule | intros ks'; apply IH].
  - destruct e; try apply grows_raise;
      (apply grows_bind; [apply grows_emit | intros _; apply grows_raise]).
Qed.

Lemma grows_init (port filename : string) (config : option yaml) :
  grows (MidiInputHandler.init (W := W) port filename config).
Proof.
  unfold MidiInputHandler.init, MidiInputHandler.load_config.
  apply grows_bind; [|intros ks; apply grows_ret].
  destruct config as [data|]; [|apply grows_raise].
  apply grows_bind; [apply grows_lift | intros items; apply grows_load_entries].
Qed.

Lemma emit_first {A : Type} (e : effect) (f : unit -> M W A) (s : state W) :
  grows (f tt) ->
  exists rest : list effect,
    trace (snd ((emit e ≫= f) s)) = trace s ++ e :: rest.
Proof.
  intros Hf. unfold mbind, M_bind, emit. simpl.
  destruct (Hf (mkState (world s) (trace s ++ [e]))) as [tr Htr].
  exists tr. rewrite Htr. simpl. by rewrite <- app_assoc.
Qed.

(** The first thing [main] does is to open the port: the configuration is
    loaded, and its errors logged, after that. *)
Lemma main_opens_port_first (opened : result string) (filename : string)
      (config : option yaml)
      (s : state W) :
  exists rest : list effect,
    trace (snd (main opened filename config s)) = trace s ++ Call_open_midiinput :: rest.
Proof.
  unfold main. apply emit_first.
  destruct opened as [port_name|e].
  - apply grows_bind; [apply grows_emit|intros _].
    apply grows_bind; [apply grows_init|intros handler].
    apply grows_bind; [apply grows_emit|intros _].
    apply grows_bind; [apply grows_emit|intros _]. apply grows_ret.
  - destruct e; first [apply grows_ret | apply grows_raise].
Qed.

End Trace.

(** C7, as stated, fails: with a rule whose status is ["sysex"], neither a
    status name nor an integer, [main] opens the port, then loads the
    configuration, logs the error, attaches the handler and enters the main
    loop; the rule is in the dictionary of the handler, under [None]. *)
Lemma unknown_status_starts :
  MidiInputHandler.status_of_name "sysex" = None
  /\ PyStr.int "sysex" = None
  /\ main (Ok "MIDI input"%string) Sample.filename
          (Some (YSeq [Sample.unknown_status])) Sample.bound
     = (Ok (inl (Sample.handler_of [(None, [Sample.rule_sysex])])),
        mkState (world Sample.bound)
          [Call_open_midiinput; Log DEBUG MsgAttaching;
           Log ERROR (MsgUnknownStatus "sysex");
           Log DEBUG (MsgConfig (YStr "") (YStr "") ["A"%string]);
           Call_set_callback; Log INFO MsgMainLoop])
  /\ MidiInputHandler.keystrokes (Sample.handler_of [(None, [Sample.rule_sysex])]) !! None
     = Some [Sample.rule_sysex].
Proof. repeat split; vm_compute; reflexivity. Qed.

(** C7, amended: a rule whose status is neither a status name nor an
    integer is not a fatal error.  The loader logs the error for it, goes
    on with the entries that follow, and files the rule under no status
    code: what the lookup returns, for every event, is what it returns
    without the rule.  [main] opens the port before it loads the
    configuration, so the error is logged after the port is opened. *)
Theorem unknown_status_not_fatal {W : Type} (cmdspec : yaml) (rest : list yaml)
        (cmd0 : option KeyStroke.t) (ks : gmap (option Z) (list KeyStroke.t))
        (s : state W) (cmd : KeyStroke.t) (name : string) :
  MidiInputHandler.build cmdspec = Ok (Some cmd) ->
  KeyStroke.status cmd = YStr name ->
  MidiInputHandler.status_of_name name = None ->
  PyStr.int name = None ->
  exists ks' : gmap (option Z) (list KeyStroke.t),
    MidiInputHandler.load_entries (cmdspec :: rest) cmd0 ks s
    = MidiInputHandler.load_entries rest (Some cmd) ks'
        (mkState (world s)
           (trace s ++ [Log ERROR (MsgUnknownStatus name);
                        Log DEBUG (MsgConfig (KeyStroke.name cmd)
                                             (KeyStroke.description cmd)
                                             (KeyStroke.keys cmd))]))
    /\ (forall code : Z, ks' !! Some code = ks !! Some code)
    /\ (forall (port : string) (status : Z) (channel data1 data2 : option Z),
          MidiInputHandler.lookup_command (MidiInputHandler.mk port ks')
                                          status channel data1 data2
          = MidiInputHandler.lookup_command (MidiInputHandler.mk port ks)
                                            status channel data1 data2)
    /\ (forall (opened : result string) (filename : string) (config : option yaml)
               (s0 : state W),
          exists after : list effect,
            trace (snd (main opened filename config s0))
            = trace s0 ++ Call_open_midiinput :: after).
Proof.
  intros Hbuild Hst Hname Hint.
  exists (MidiInputHandler.file_under None cmd ks).
  assert (Hcodes : forall code : Z,
             MidiInputHandler.file_under None cmd ks !! Some code = ks !! Some code).
  { intros code. by apply file_under_other. }
  split; [|split; [exact Hcodes |
                   split; [intros; by apply lookup_command_codes
                          |intros; apply main_opens_port_first]]].
  simpl. rewrite Hbuild. unfold MidiInputHandler.file_rule.
  rewrite Hst, Hname, Hint. unfold_M. simpl.
  by rewrite <- app_assoc.
Qed.

Lemma unknown_status_not_fatal_witness :
  exists ks' : gmap (option Z) (list KeyStroke.t),
    MidiInputHandler.load_entries (W := unit)
      [Sample.unknown_status; Sample.noteon_60] None ∅ (mkState tt [])
    = MidiInputHandler.load_entries [Sample.noteon_60] (Some Sample.rule_sysex) ks'
        (mkState tt
           [Log ERROR (MsgUnknownStatus "sysex");
            Log DEBUG (MsgConfig (YStr "") (YStr "") ["A"%string])])
    /\ (forall code : Z, ks' !! Some code = (∅ : gmap (option Z) (list KeyStroke.t)) !! Some code)
    /\ (forall (port : string) (status : Z) (channel data1 data2 : option Z),
          MidiInputHandler.lookup_command (MidiInputHandler.mk port ks')
                                          status channel data1 data2
          = MidiInputHandler.lookup_command (MidiInputHandler.mk port ∅)
                                            status channel data1 data2).
Proof.
  destruct (unknown_status_not_fatal (W := unit) Sample.unknown_status
              [Sample.noteon_60] None ∅ (mkState tt []) Sample.rule_sysex "sysex")
    as (ks' & Hload & Hcodes & Hlookup & _); try (vm_compute; reflexivity).
  exists ks'. split; [exact Hload|]. split; [exact Hcodes | exact Hlookup].
Defined.

(** ** C10: rules with status noteoff *)

Section Loaded.
Context {W : Type}.
Import MidiInputHandler.

Lemma filed_by_status_empty : filed_by_status ∅.
Proof. intros k rules r Hk. by rewrite lookup_empty in Hk. Qed.

Lemma file_rule_ok (cmd : KeyStroke.t) (ks ks' : gmap (option Z) (list KeyStroke.t))
      (s s' : state W) :
  file_rule cmd ks s = (Ok ks', s') ->
  exists name : string,
    KeyStroke.status cmd = YStr name
    /\ ks' = file_under (status_of_name name) cmd ks.
Proof.
  unfold file_rule. destruct (KeyStroke.status cmd) as [| | | |name| |];
    try (unfold raise; discriminate).
  intros H. exists name. split; [done|].
  revert H. unfold_M.
  destruct (status_of_name name); [|destruct (PyStr.int name)];
    simpl; by intros [= <- _].
Qed.

Lemma file_rule_filed (cmd : KeyStroke.t) (ks ks' : gmap (option Z) (list KeyStroke.t))
      (s s' : state W) :
  file_rule cmd ks s = (Ok ks', s') ->
  filed_by_status ks -> filed_by_status ks'.
Proof.
  intros (name & Hst & ->)%file_rule_ok Hinv k rules r Hk Hr.
  destruct (decide (k = status_of_name name)) as [->|Hne].
  - rewrite file_under_same in Hk. injection Hk as <-.
    apply elem_of_app in Hr as [Hr|Hr%list_elem_of_singleton].
    + destruct (ks !! status_of_name name) as [old|] eqn:Hold; simpl in Hr.
      * by apply (Hinv _ old).
      * by apply elem_of_nil in Hr.
    + subst r. eauto.
  - rewrite file_under_other in Hk by done. by apply (Hinv k rules).
Qed.

Lemma load_entries_filed (data : list yaml) :
  forall (cmd : option KeyStroke.t) (ks ks' : gmap (option Z) (list KeyStroke.t))
         (s s' : state W),
    load_entries data cmd ks s = (Ok ks', s') ->
    filed_by_status ks -> filed_by_status ks'.
Proof.
  induction data as [|cmdspec rest IH]; intros cmd ks ks' s s'; simpl.
  { unfold_M. by intros [= <- _]. }
  destruct (build cmdspec) as [assigned|e].
  - destruct (match assigned with Some c => Some c | None => cmd end) as [c|];
      [|unfold raise; discriminate].
    unfold mbind, M_bind.
    destruct (file_rule c ks s) as [[ks1|e] s1] eqn:Hfile; [|discriminate].
    intros Hrest Hinv. apply (IH _ _ _ _ _ Hrest).
    by apply (file_rule_filed _ _ _ _ _ Hfile).
  - destruct e; unfold_M; discriminate.
Qed.

Lemma load_config_filed (filename : string) (config : option yaml)
      (ks : gmap (option Z) (list KeyStroke.t)) (s s' : state W) :
  load_config filename config ∅ s = (Ok ks, s') -> filed_by_status ks.
Proof.
  unfold load_config. destruct config as [data|]; [|unfold raise; discriminate].
  unfold_M. destruct (py_iter data) as [items|e]; [|discriminate].
  intros Hload. apply (load_entries_filed _ _ _ _ _ _ Hload), filed_by_status_empty.
Qed.



End Loaded.


(** * Further properties of the code *)

(** ** Decoding a message *)

Lemma nibbles_below_240 :
  forallb (fun b => (Z.land b 0xF0 + Z.land b 0xF =? b)
                    && (Z.land b 0xF0 mod 16 =? 0)
                    && (0 <=? Z.land b 0xF) && (Z.land b 0xF <=? 15))
          (seqZ 0 240) = true.
Proof. vm_compute. reflexivity. Qed.

(** X1: the status byte of a message splits into status and channel and
    is recovered from them.  Below 0xF0 the channel is in 1-16, the status
    is a multiple of 16 and status + (channel - 1) is the byte; from 0xF0
    on there is no channel and the status is the byte. *)
Theorem decode_status_byte (byte0 : Z) (data : list Z) (status : Z)
        (channel data1 data2 : option Z) :
  0 <= byte0 ->
  MidiInputHandler.decode (byte0 :: data) = Ok (status, channel, data1, data2) ->
  match channel with
  | Some c =>
      byte0 < 0xF0 /\ 1 <= c <= 16 /\ status mod 16 = 0
      /\ status + (c - 1) = byte0
  | None => 0xF0 <= byte0 /\ status = byte0
  end
  /\ data1 = data !! 0%nat /\ data2 = data !! 1%nat.
Proof.
  intros Hpos. unfold MidiInputHandler.decode.
  destruct (Z.ltb_spec byte0 0xF0) as [Hlt|Hge]; intros [= <- <- <- <-].
  - split; [|done].
    pose proof nibbles_below_240 as Hall.
    rewrite forallb_forall in Hall.
    assert (Hin : In byte0 (seqZ 0 240)).
    { apply list_elem_of_In, elem_of_seqZ. lia. }
    apply Hall in Hin.
    apply andb_true_iff in Hin as [Hin H15].
    apply andb_true_iff in Hin as [Hin H0].
    apply andb_true_iff in Hin as [Hsum Hmod].
    apply Z.eqb_eq in Hsum, Hmod. apply Z.leb_le in H15, H0.
    repeat split; lia.
  - split; [|done]. split; [lia | reflexivity].
Qed.

Lemma decode_status_byte_witness :
  match Some 16 with
  | Some c =>
      0xCF < 0xF0 /\ 1 <= c <= 16 /\ PROGRAM_CHANGE mod 16 = 0
      /\ PROGRAM_CHANGE + (c - 1) = 0xCF
  | None => 0xF0 <= 0xCF /\ PROGRAM_CHANGE = 0xCF
  end
  /\ Some 5 = [5] !! 0%nat /\ (None : option Z) = [5] !! 1%nat.
Proof.
  apply (decode_status_byte 0xCF [5] PROGRAM_CHANGE (Some 16) (Some 5) None);
    [lia | reflexivity].
Defined.

(** ** The rule that the lookup returns *)

Section FirstMatch.
Import MidiInputHandler.

Lemma scan_passes_over (status : Z) (channel data1 data2 : option Z)
      (r : KeyStroke.t) (rules : list KeyStroke.t) :
  passes_over status channel data1 data2 r ->
  scan status channel data1 data2 (r :: rules)
  = scan status channel data1 data2 rules.
Proof.
  intros [(c & -> & Hne)|[Hone Hpair]]; simpl.
  - by rewrite Hne.
  - destruct (match channel with
              | Some c => channel_ne (KeyStroke.channel r) c
              | None => false
              end); [reflexivity|].
    by rewrite Hone, Hpair.
Qed.

(** What the loop does with the first rule of the list. *)
Lemma scan_head_cases (status : Z) (channel data1 data2 : option Z)
      (r : KeyStroke.t) :
  passes_over status channel data1 data2 r
  \/ accepts status channel data1 data2 r
  \/ exists e : exn,
      forall rules : list KeyStroke.t,
        scan status channel data1 data2 (r :: rules) = Raise e.
Proof.
  unfold passes_over, accepts.
  destruct channel as [c|].
  - destruct (channel_ne (KeyStroke.channel r) c) eqn:Hch; [left; eauto|].
    destruct ((status =? NOTE_ON) && data_eq (KeyStroke.data r) data1) eqn:Hone.
    { apply andb_true_iff in Hone as [Hs%Z.eqb_eq Hd]. right. left. auto. }
    destruct (pair_eq (KeyStroke.data r) data1 data2) as [[|]|e] eqn:Hpair.
    + right. left. auto.
    + left. right. auto.
    + right. right. exists e. intros rules. simpl. by rewrite Hch, Hone, Hpair.
  - destruct ((status =? NOTE_ON) && data_eq (KeyStroke.data r) data1) eqn:Hone.
    { apply andb_true_iff in Hone as [Hs%Z.eqb_eq Hd]. right. left. auto. }
    destruct (pair_eq (KeyStroke.data r) data1 data2) as [[|]|e] eqn:Hpair.
    + right. left. auto.
    + left. right. auto.
    + right. right. exists e. intros rules. simpl. by rewrite Hone, Hpair.
Qed.

(** X2: first match wins.  The loop returns the rule [r] exactly when the
    list is some rules that are all passed over, then [r], which passes the
    tests, then any rules; it returns no rule exactly when every rule is
    passed over.  The rules after the first match are not looked at. *)
Theorem scan_first_match (status : Z) (channel data1 data2 : option Z)
        (rules : list KeyStroke.t) :
  (forall r : KeyStroke.t,
      scan status channel data1 data2 rules = Ok (Some r)
      <-> exists pre post : list KeyStroke.t,
          rules = pre ++ r :: post
          /\ Forall (passes_over status channel data1 data2) pre
          /\ accepts status channel data1 data2 r)
  /\ (scan status channel data1 data2 rules = Ok None
      <-> Forall (passes_over status channel data1 data2) rules).
Proof.
  split.
  - intros r. split.
    + induction rules as [|k rest IH]; [discriminate|].
      destruct (scan_head_cases status channel data1 data2 k)
        as [Hover|[Hacc|[e He]]].
      * rewrite scan_passes_over by done.
        intros (pre & post & -> & Hpre & Hacc)%IH.
        exists (k :: pre), post. split; [done|]. split; [by constructor | done].
      * rewrite scan_accepts_head by done. intros [= <-].
        exists [], rest. split; [done|]. split; [constructor | done].
      * rewrite He. discriminate.
    + intros (pre & post & -> & Hpre & Hacc).
      induction Hpre as [|k pre Hk Hpre IH]; simpl app.
      * by apply scan_accepts_head.
      * by rewrite scan_passes_over.
  - split.
    + induction rules as [|k rest IH]; [constructor|].
      destruct (scan_head_cases status channel data1 data2 k)
        as [Hover|[Hacc|[e He]]].
      * rewrite scan_passes_over by done. intros Hrest%IH. by constructor.
      * rewrite scan_accepts_head by done. discriminate.
      * rewrite He. discriminate.
    + induction 1 as [|k rest Hk Hrest IH]; [reflexivity|].
      by rewrite scan_passes_over.
Qed.

End FirstMatch.

Lemma scan_first_match_witness :
  MidiInputHandler.scan NOTE_ON (Some 1) (Some 60) (Some 100)
    [Sample.noteon_any_channel; Sample.rule_noteon_60; Sample.rule_noteoff_60]
  = Ok (Some Sample.rule_noteon_60).
Proof.
  apply (scan_first_match NOTE_ON (Some 1) (Some 60) (Some 100)
           [Sample.noteon_any_channel; Sample.rule_noteon_60; Sample.rule_noteoff_60]).
  exists [Sample.noteon_any_channel], [Sample.rule_noteoff_60].
  split; [reflexivity|]. split.
  - constructor; [|constructor]. left. exists 1. split; reflexivity.
  - split; [reflexivity|]. left. split; reflexivity.
Defined.

(** X3: the data of a returned rule.  When the lookup returns a rule, then
    either the status is note-on or note-off and the data of the rule is
    the integer [data1], or is absent as [data1] is; or the data of the
    rule is a list of at least two integers, the first being [data1], and
    the message has a [data2].  So a rule without data is returned for no
    message that has a data byte, and a rule with an integer for no status
    but note-on and note-off. *)
Theorem lookup_command_data (self : MidiInputHandler.t) (status : Z)
        (channel data1 data2 : option Z) (r : KeyStroke.t) :
  MidiInputHandler.lookup_command self status channel data1 data2 = Ok (Some r) ->
  ((status = NOTE_ON \/ status = NOTE_OFF)
   /\ ((exists x : Z, KeyStroke.data r = DInt x /\ data1 = Some x)
       \/ (KeyStroke.data r = DNone /\ data1 = None)))
  \/ (exists (a b : Z) (rest : list Z) (d : Z),
        KeyStroke.data r = DList (a :: b :: rest)
        /\ data1 = Some a /\ data2 = Some d).
Proof.
  rewrite lookup_command_unfold.
  destruct (MidiInputHandler.normalize status data2) as [[status' data2']|] eqn:Hn;
    [|discriminate].
  intros [_ [_ [[Hs Hd]|Hp]]]%scan_returns.
  - left. split.
    { apply normalize_status in Hn as [_ [[-> _]| <-]]; auto. }
    destruct (KeyStroke.data r) as [|x|l]; simpl in Hd.
    + right. by destruct data1.
    + left. exists x. split; [done|].
      destruct data1 as [y|]; [|discriminate]. simpl in Hd.
      apply Z.eqb_eq in Hd. by subst.
    + by destruct data1.
  - right. apply pair_eq_true in Hp as (a & b & rest & Hd & H1 & H2).
    assert (exists d : Z, data2 = Some d) as [d Hd2].
    { revert Hn. unfold MidiInputHandler.normalize.
      destruct (status =? NOTE_OFF); [intros [= _ <-]; eauto|].
      destruct (status =? CONTROLLER_CHANGE).
      - destruct data2 as [d|]; [eauto | discriminate].
      - intros [= _ <-]. eauto. }
    exists a, b, rest, d. auto.
Qed.

Lemma lookup_command_data_witness :
  ((NOTE_OFF = NOTE_ON \/ NOTE_OFF = NOTE_OFF)
   /\ ((exists x : Z, KeyStroke.data Sample.rule_noteon_60 = DInt x /\ Some 60 = Some x)
       \/ (KeyStroke.data Sample.rule_noteon_60 = DNone /\ Some 60 = None)))
  \/ (exists (a b : Z) (rest : list Z) (d : Z),
        KeyStroke.data Sample.rule_noteon_60 = DList (a :: b :: rest)
        /\ Some 60 = Some a /\ Some 0 = Some d).
Proof.
  apply (lookup_command_data
           (Sample.handler_of [(Some NOTE_ON, [Sample.rule_noteon_60])])
           NOTE_OFF (Some 1) (Some 60) (Some 0)).
  vm_compute. reflexivity.
Defined.

(** ** Exceptions of the lookup *)

(** X4: a controller change without a value.  When the status of a message
    is [CONTROLLER_CHANGE] and it has fewer than three bytes, the lookup
    compares [None] with 64: [__call__] logs the event and raises
    [TypeError], whatever the rules are, and calls nothing in [sendKey]. *)
Theorem controller_change_without_value {W : Type} {SK : SendKey W}
        (self : MidiInputHandler.t) (byte0 : Z) (data : list Z) (s : state W) :
  byte0 < 0xF0 ->
  Z.land byte0 0xF0 = CONTROLLER_CHANGE ->
  (length data <= 1)%nat ->
  MidiInputHandler.call self (byte0 :: data) s
  = (Raise TypeError,
     event_logged s CONTROLLER_CHANGE (Some (Z.land byte0 0xF + 1))
                  (data !! 0%nat) None).
Proof.
  intros Hlt Hcc Hlen. unfold MidiInputHandler.call, MidiInputHandler.decode.
  destruct (Z.ltb_spec byte0 0xF0); [|lia]. rewrite Hcc.
  assert (data !! 1%nat = None) as ->.
  { apply lookup_ge_None. lia. }
  reflexivity.
Qed.

Lemma controller_change_without_value_witness :
  MidiInputHandler.call
    (Sample.handler_of
       [(Some CONTROLLER_CHANGE, [Sample.rule_controllerchange_14_65])])
    [0xBF; 14] Sample.bound
  = (Raise TypeError,
     event_logged Sample.bound CONTROLLER_CHANGE (Some (Z.land 0xBF 0xF + 1))
                  ([14] !! 0%nat) None).
Proof.
  apply controller_change_without_value; [lia | reflexivity | simpl; lia].
Defined.

(** X5: the number of integers in the data of a rule is not checked when
    the rule is built.  A data string with a single integer gives a rule;
    when that rule is the first one filed under the status of a message on
    its channel whose [data1] is that integer, the lookup raises
    [IndexError]. *)
Theorem single_integer_data_raises (name description status : yaml) (c a : Z)
        (d k : string) :
  mapM PyStr.int (PyStr.split d) = Some [a] ->
  exists r : KeyStroke.t,
    KeyStroke.init name description status (YInt c) (YStr d) (YStr k) = Ok r
    /\ KeyStroke.data r = DList [a]
    /\ forall (self : MidiInputHandler.t) (st st' : Z) (data2 data2' : option Z)
              (rest : list KeyStroke.t),
        MidiInputHandler.normalize st data2 = Ok (st', data2') ->
        MidiInputHandler.keystrokes self !! Some st' = Some (r :: rest) ->
        MidiInputHandler.lookup_command self st (Some c) (Some a) data2
        = Raise IndexError.
Proof.
  intros Hd. eexists. unfold KeyStroke.init. rewrite Hd.
  split; [reflexivity|]. split; [reflexivity|].
  intros self st st' data2 data2' rest Hn Hk.
  rewrite lookup_command_unfold, Hn, Hk. simpl.
  unfold MidiInputHandler.channel_ne. simpl.
  rewrite !Z.eqb_refl. simpl. by rewrite andb_false_r.
Qed.

Lemma single_integer_data_raises_witness :
  exists r : KeyStroke.t,
    KeyStroke.init (YStr "") (YStr "") (YStr "controllerchange") (YInt 1)
                   (YStr "14") (YStr "A") = Ok r
    /\ KeyStroke.data r = DList [14]
    /\ MidiInputHandler.lookup_command
         (Sample.handler_of [(Some CONTROLLER_CHANGE, [r])])
         CONTROLLER_CHANGE (Some 1) (Some 14) (Some 127)
       = Raise IndexError.
Proof.
  destruct (single_integer_data_raises (YStr "") (YStr "")
              (YStr "controllerchange") 1 14 "14" "A") as (r & Hr & Hd & Hraise);
    [reflexivity|].
  exists r. split; [exact Hr|]. split; [exact Hd|].
  apply (Hraise _ CONTROLLER_CHANGE CONTROLLER_CHANGE (Some 127) (Some 65) []);
    reflexivity.
Defined.

(** ** Normalization *)

(** X6: normalization is idempotent, and the lookup depends on the status
    and on [data2] through their normalized values only: all the values of
    a controller that fall into one bucket are looked up alike. *)
Theorem normalize_idempotent (status status' : Z) (data2 data2' : option Z) :
  MidiInputHandler.normalize status data2 = Ok (status', data2') ->
  MidiInputHandler.normalize status' data2' = Ok (status', data2')
  /\ forall (self : MidiInputHandler.t) (channel data1 : option Z),
      MidiInputHandler.lookup_command self status channel data1 data2
      = MidiInputHandler.lookup_command self status' channel data1 data2'.
Proof.
  intros Hn.
  assert (Hidem : MidiInputHandler.normalize status' data2' = Ok (status', data2')).
  { revert Hn. unfold MidiInputHandler.normalize.
    destruct (Z.eqb_spec status NOTE_OFF) as [->|Hoff]; [by intros [= <- <-]|].
    destruct (Z.eqb_spec status CONTROLLER_CHANGE) as [->|Hcc].
    - destruct data2 as [d|]; [|discriminate].
      destruct (Z.ltb_spec d 64); [by intros [= <- <-]|].
      destruct (Z.gtb_spec d 64); [by intros [= <- <-]|].
      intros [= <- <-]. simpl.
      destruct (Z.ltb_spec d 64); [lia|]. by destruct (Z.gtb_spec d 64); [lia|].
    - intros [= <- <-].
      destruct (Z.eqb_spec status NOTE_OFF); [done|].
      by destruct (Z.eqb_spec status CONTROLLER_CHANGE). }
  split; [exact Hidem|].
  intros self channel data1. by rewrite !lookup_command_unfold, Hn, Hidem.
Qed.

Lemma normalize_idempotent_witness :
  MidiInputHandler.normalize CONTROLLER_CHANGE (Some 65)
  = Ok (CONTROLLER_CHANGE, Some 65)
  /\ forall (self : MidiInputHandler.t) (channel data1 : option Z),
      MidiInputHandler.lookup_command self CONTROLLER_CHANGE channel data1 (Some 100)
      = MidiInputHandler.lookup_command self CONTROLLER_CHANGE channel data1 (Some 65).
Proof.
  apply (normalize_idempotent CONTROLLER_CHANGE CONTROLLER_CHANGE (Some 100) (Some 65)).
  reflexivity.
Defined.

(** X7: the velocity of a note is not looked at.  When no rule filed under
    [NOTE_ON] has a list for data, the lookup for a note-on or a note-off
    is the same for every [data2], present or not. *)
Theorem note_velocity_ignored (self : MidiInputHandler.t) (status : Z)
        (channel data1 data2 data2' : option Z) :
  status = NOTE_ON \/ status = NOTE_OFF ->
  Forall (fun r => forall l : list Z, KeyStroke.data r <> DList l)
         (default [] (MidiInputHandler.keystrokes self !! Some NOTE_ON)) ->
  MidiInputHandler.lookup_command self status channel data1 data2
  = MidiInputHandler.lookup_command self status channel data1 data2'.
Proof.
  intros Hst Hrules.
  assert (Hn : forall d : option Z,
             MidiInputHandler.lookup_command self status channel data1 d
             = MidiInputHandler.scan NOTE_ON channel data1 d
                 (default [] (MidiInputHandler.keystrokes self !! Some NOTE_ON))).
  { intros d. rewrite lookup_command_unfold. by destruct Hst as [->| ->]. }
  rewrite !Hn. clear Hn.
  induction Hrules as [|r rules Hr Hrules IH]; [reflexivity|].
  simpl. rewrite IH.
  assert (forall d : option Z,
             MidiInputHandler.pair_eq (KeyStroke.data r) data1 d = Ok false) as Hp.
  { intros d. destruct (KeyStroke.data r) as [| |l] eqn:E; try reflexivity.
    by destruct (Hr l). }
  by rewrite !Hp.
Qed.

Lemma note_velocity_ignored_witness :
  MidiInputHandler.lookup_command
    (Sample.handler_of [(Some NOTE_ON, [Sample.rule_noteon_60])])
    NOTE_OFF (Some 1) (Some 60) (Some 0)
  = MidiInputHandler.lookup_command
      (Sample.handler_of [(Some NOTE_ON, [Sample.rule_noteon_60])])
      NOTE_OFF (Some 1) (Some 60) (Some 127).
Proof.
  apply note_velocity_ignored; [by right|].
  vm_compute. constructor; [discriminate | constructor].
Defined.

(** ** Loading the configuration *)

Section Order.
Context {W : Type}.
Import MidiInputHandler.

Lemma file_under_appends (status k : option Z) (cmd : KeyStroke.t)
      (ks : gmap (option Z) (list KeyStroke.t)) :
  exists added : list KeyStroke.t,
    default [] (file_under status cmd ks !! k) = default [] (ks !! k) ++ added.
Proof.
  destruct (decide (k = status)) as [->|Hne].
  - exists [cmd]. by rewrite file_under_same.
  - exists []. by rewrite file_under_other, app_nil_r.
Qed.

Lemma load_entries_appends (data : list yaml) :
  forall (cmd : option KeyStroke.t) (ks ks' : gmap (option Z) (list KeyStroke.t))
         (s s' : state W) (k : option Z),
    load_entries data cmd ks s = (Ok ks', s') ->
    exists added : list KeyStroke.t,
      default [] (ks' !! k) = default [] (ks !! k) ++ added.
Proof.
  induction data as [|cmdspec rest IH]; intros cmd ks ks' s s' k; simpl.
  { unfold_M. intros [= <- _]. exists []. by rewrite app_nil_r. }
  destruct (build cmdspec) as [assigned|e].
  - destruct (match assigned with Some c => Some c | None => cmd end) as [c|];
      [|unfold raise; discriminate].
    unfold mbind, M_bind.
    destruct (file_rule c ks s) as [[ks1|e] s1] eqn:Hfile; [|discriminate].
    apply file_rule_ok in Hfile as (name & _ & ->).
    intros [added Hadded]%(IH _ _ _ _ _ k).
    destruct (file_under_appends (status_of_name name) k c ks) as [added0 Hadded0].
    exists (added0 ++ added). by rewrite Hadded, Hadded0, app_assoc.
  - destruct e; unfold_M; discriminate.
Qed.

(** A result of the loop stays when rules are added at the end. *)
Lemma scan_app (status : Z) (channel data1 data2 : option Z)
      (rules added : list KeyStroke.t) (r : KeyStroke.t) :
  scan status channel data1 data2 rules = Ok (Some r) ->
  scan status channel data1 data2 (rules ++ added) = Ok (Some r).
Proof.
  induction rules as [|k rest IH]; [discriminate|]. simpl.
  destruct (match channel with
            | Some c => channel_ne (KeyStroke.channel k) c
            | None => false
            end); [exact IH|].
  destruct ((status =? NOTE_ON) && data_eq (KeyStroke.data k) data1); [done|].
  destruct (pair_eq (KeyStroke.data k) data1 data2) as [[|]|e]; [done | exact IH | done].
Qed.

(** X8: the order of the configuration is the order of precedence.  The
    entries that are loaded are appended to the lists of the dictionary, so
    a rule that the lookup returns before more entries are loaded is still
    the rule it returns after. *)
Theorem load_entries_keeps_precedence (data : list yaml) (cmd : option KeyStroke.t)
        (ks ks' : gmap (option Z) (list KeyStroke.t)) (s s' : state W) :
  load_entries data cmd ks s = (Ok ks', s') ->
  (forall k : option Z,
      exists added : list KeyStroke.t,
        default [] (ks' !! k) = default [] (ks !! k) ++ added)
  /\ (forall (port : string) (status : Z) (channel data1 data2 : option Z)
             (r : KeyStroke.t),
        lookup_command (mk port ks) status channel data1 data2 = Ok (Some r) ->
        lookup_command (mk port ks') status channel data1 data2 = Ok (Some r)).
Proof.
  intros Hload. split.
  - intros k. by apply (load_entries_appends data cmd ks ks' s s').
  - intros port status channel data1 data2 r. rewrite !lookup_command_unfold.
    simpl. destruct (normalize status data2) as [[status' data2']|]; [|done].
    destruct (load_entries_appends data cmd ks ks' s s' (Some status') Hload)
      as [added ->].
    apply scan_app.
Qed.

End Order.

Lemma load_entries_keeps_precedence_witness :
  MidiInputHandler.lookup_command
    (Sample.handler_of [(Some NOTE_ON, [Sample.rule_noteon_60; Sample.rule_noteon_60])])
    NOTE_ON (Some 1) (Some 60) None
  = Ok (Some Sample.rule_noteon_60).
Proof.
  destruct (load_entries_keeps_precedence (W := unit) [Sample.noteon_60] None
              (list_to_map [(Some NOTE_ON, [Sample.rule_noteon_60])])
              (list_to_map [(Some NOTE_ON, [Sample.rule_noteon_60; Sample.rule_noteon_60])])
              (mkState tt [])
              (mkState tt [Log DEBUG (MsgConfig (YStr "") (YStr "") ["B"%string])]))
    as [_ Hkeep]; [vm_compute; reflexivity|].
  apply Hkeep. vm_compute. reflexivity.
Defined.

Section Entries.
Context {W : Type}.
Import MidiInputHandler.

(** X9: an entry that assigns nothing.  An entry that is a sequence, a
    string or a mapping without ["keys"], with fewer than two items, builds
    no rule.  When it is the first entry, the loader raises
    [UnboundLocalError]; after an entry that built the rule [c], with a
    known status, the rule [c] is filed a second time under its status. *)
Theorem entry_without_rule (cmdspec : yaml) (n : Z) (rest : list yaml)
        (ks : gmap (option Z) (list KeyStroke.t)) (s : state W) :
  is_dict_with_keys cmdspec = false ->
  py_len cmdspec = Ok n ->
  n < 2 ->
  load_entries (cmdspec :: rest) None ks s = (Raise UnboundLocalError, s)
  /\ forall (c : KeyStroke.t) (name : string) (code : Z),
      KeyStroke.status c = YStr name ->
      status_of_name name = Some code ->
      load_entries (cmdspec :: rest) (Some c) ks s
      = load_entries rest (Some c) (file_under (Some code) c ks)
          (mkState (world s)
             (trace s ++ [Log DEBUG (MsgConfig (KeyStroke.name c)
                                               (KeyStroke.description c)
                                               (KeyStroke.keys c))])).
Proof.
  intros Hdict Hlen Hn.
  assert (Hbuild : build cmdspec = Ok None).
  { unfold build. rewrite Hdict, Hlen. simpl.
    destruct (Z.geb_spec n 2); [lia | reflexivity]. }
  split.
  - simpl. by rewrite Hbuild.
  - intros c name code Hst Hname. simpl. rewrite Hbuild.
    unfold file_rule. rewrite Hst, Hname. reflexivity.
Qed.

(** X10: entries that are refused.  For a mapping that has the key
    ["keys"]: a key that is no parameter of [KeyStroke], or a data that is
    a float, a sequence or a mapping, makes the loader log the entry and
    raise [IOError] with the message "Invalid command specification"
    formatted with the [TypeError]; a data string with a word that is no
    integer does the same with the [ValueError]; a value of ["keys"] that
    is no string makes it raise [AttributeError], which goes through as it
    is.  No entry after it is read. *)
Theorem entry_refused (entries : list (string * yaml)) (rest : list yaml)
        (cmd : option KeyStroke.t) (ks : gmap (option Z) (list KeyStroke.t))
        (s : state W) :
  is_dict_with_keys (YMap entries) = true ->
  (only_parameters entries = false ->
   load_entries (YMap entries :: rest) cmd ks s
   = refused s (YMap entries) TypeError)
  /\ (forall k d : string,
        only_parameters entries = true ->
        KeyStroke.get "keys" YNull entries = YStr k ->
        KeyStroke.get "data" YNull entries = YStr d ->
        mapM PyStr.int (PyStr.split d) = None ->
        load_entries (YMap entries :: rest) cmd ks s
        = refused s (YMap entries) ValueError)
  /\ (forall k : string,
        only_parameters entries = true ->
        KeyStroke.get "keys" YNull entries = YStr k ->
        (exists x, KeyStroke.get "data" YNull entries = YFloat x)
        \/ (exists items, KeyStroke.get "data" YNull entries = YSeq items)
        \/ (exists m, KeyStroke.get "data" YNull entries = YMap m) ->
        load_entries (YMap entries :: rest) cmd ks s
        = refused s (YMap entries) TypeError)
  /\ (only_parameters entries = true ->
      (forall k : string, KeyStroke.get "keys" YNull entries <> YStr k) ->
      load_entries (YMap entries :: rest) cmd ks s = (Raise AttributeError, s)).
Proof.
  intros Hdict.
  assert (Hbuild : build (YMap entries) = Some <$> KeyStroke.of_kwargs entries).
  { unfold build. by rewrite Hdict. }
  unfold load_entries; fold (load_entries (W := W)). rewrite Hbuild.
  unfold KeyStroke.of_kwargs, refused.
  change (forallb (fun e => existsb (String.eqb (fst e)) KeyStroke.parameters) entries)
    with (only_parameters entries).
  split; [intros ->; reflexivity|].
  split; [intros k d -> Hk Hd Hints; unfold KeyStroke.init;
          by rewrite Hk, Hd, Hints|].
  split.
  - intros k -> Hk [[x Hd]|[[items Hd]|[m Hd]]]; unfold KeyStroke.init;
      by rewrite Hk, Hd.
  - intros -> Hk. unfold KeyStroke.init.
    destruct (KeyStroke.get "keys" YNull entries) as [| | | |k| |] eqn:E;
      try reflexivity.
    by destruct (Hk k).
Qed.

End Entries.

Lemma entry_without_rule_witness :
  MidiInputHandler.load_entries (W := unit) [YSeq [YStr "only"]] None ∅ (mkState tt [])
  = (Raise UnboundLocalError, mkState tt []).
Proof.
  apply (entry_without_rule (W := unit) (YSeq [YStr "only"]) 1 [] ∅ (mkState tt []));
    [reflexivity | reflexivity | lia].
Defined.

Lemma entry_refused_witness :
  MidiInputHandler.load_entries (W := unit)
    [YMap [("keys", YStr "A"); ("command", YStr "ls")]%string] None ∅ (mkState tt [])
  = (Raise (IOError (InvalidCommandSpecification TypeError)),
     mkState tt [Log DEBUG (MsgCmdspec
                              (YMap [("keys", YStr "A"); ("command", YStr "ls")]%string))]).
Proof.
  apply (entry_refused (W := unit)
           [("keys", YStr "A"); ("command", YStr "ls")]%string [] None ∅
           (mkState tt [])); reflexivity.
Defined.

(** ** Status names *)

Section Names.
Import PyStr.

Lemma lower_char_idempotent (c : ascii) : lower_char (lower_char c) = lower_char c.
Proof. destruct c as [[] [] [] [] [] [] [] []]; reflexivity. Qed.

Lemma is_space_lower_char (c : ascii) : is_space (lower_char c) = is_space c.
Proof. destruct c as [[] [] [] [] [] [] [] []]; reflexivity. Qed.

Lemma lower_chars (s : string) :
  list_ascii_of_string (lower s) = map lower_char (list_ascii_of_string s).
Proof. induction s as [|c s IH]; simpl; [reflexivity | by rewrite IH]. Qed.

Lemma lower_of_chars (l : list ascii) :
  lower (string_of_list_ascii l) = string_of_list_ascii (map lower_char l).
Proof. induction l as [|c l IH]; simpl; [reflexivity | by rewrite IH]. Qed.

Lemma lower_idempotent (s : string) : lower (lower s) = lower s.
Proof.
  induction s as [|c s IH]; simpl; [reflexivity|].
  by rewrite lower_char_idempotent, IH.
Qed.

Lemma lstrip_chars_lower (l : list ascii) :
  lstrip_chars (map lower_char l) = map lower_char (lstrip_chars l).
Proof.
  induction l as [|c l IH]; simpl; [reflexivity|].
  rewrite is_space_lower_char. by destruct (is_space c).
Qed.

Lemma strip_chars_lower (l : list ascii) :
  strip_chars (map lower_char l) = map lower_char (strip_chars l).
Proof.
  unfold strip_chars.
  by rewrite lstrip_chars_lower, <- map_rev, lstrip_chars_lower, map_rev.
Qed.

Lemma strip_lower_commute (s : string) : strip (lower s) = lower (strip s).
Proof.
  unfold strip. by rewrite lower_chars, strip_chars_lower, lower_of_chars.
Qed.

(** A list that does not begin with white space. *)
Lemma lstrip_chars_head (l : list ascii) :
  match lstrip_chars l with
  | [] => True
  | c :: _ => is_space c = false
  end.
Proof.
  induction l as [|c l IH]; simpl; [done|].
  destruct (is_space c) eqn:E; [exact IH | exact E].
Qed.

Lemma lstrip_chars_fixed (l : list ascii) :
  match l with [] => True | c :: _ => is_space c = false end ->
  lstrip_chars l = l.
Proof. destruct l as [|c l]; simpl; [done|]. by intros ->. Qed.

Lemma lstrip_chars_idempotent (l : list ascii) :
  lstrip_chars (lstrip_chars l) = lstrip_chars l.
Proof. apply lstrip_chars_fixed, lstrip_chars_head. Qed.

(** Stripping at the left what ends with a character that is no white
    space keeps that last character. *)
Lemma lstrip_chars_snoc (l : list ascii) (c : ascii) :
  is_space c = false ->
  exists l' : list ascii, lstrip_chars (l ++ [c]) = l' ++ [c].
Proof.
  intros Hc. induction l as [|a l IH]; simpl.
  - rewrite Hc. by exists [].
  - destruct (is_space a); [exact IH|]. by exists (a :: l).
Qed.

Lemma strip_chars_idempotent (l : list ascii) :
  strip_chars (strip_chars l) = strip_chars l.
Proof.
  unfold strip_chars.
  pose proof (lstrip_chars_head l) as Hhead.
  set (A := lstrip_chars l) in *.
  assert (HB : lstrip_chars (rev (lstrip_chars (rev A)))
               = rev (lstrip_chars (rev A))).
  { destruct A as [|c l1]; [reflexivity|].
    simpl rev. destruct (lstrip_chars_snoc (rev l1) c Hhead) as [l2 ->].
    rewrite rev_app_distr. simpl. by rewrite Hhead. }
  by rewrite HB, rev_involutive, lstrip_chars_idempotent.
Qed.

Lemma strip_idempotent (s : string) : strip (strip s) = strip s.
Proof.
  unfold strip.
  by rewrite list_ascii_of_string_of_list_ascii, strip_chars_idempotent.
Qed.

End Names.

(** X11: status names are recognized whatever their case and the white
    space around them: putting a name in lower case, or removing the white
    space at its ends, does not change the status it stands for. *)
Theorem status_of_name_insensitive (name : string) :
  MidiInputHandler.status_of_name (PyStr.lower name)
  = MidiInputHandler.status_of_name name
  /\ MidiInputHandler.status_of_name (PyStr.strip name)
     = MidiInputHandler.status_of_name name.
Proof.
  unfold MidiInputHandler.status_of_name. split.
  - by rewrite strip_lower_commute, lower_idempotent.
  - by rewrite strip_idempotent.
Qed.

(** ** What a loaded configuration can match *)

Lemma status_of_name_codes (name : string) (code : Z) :
  MidiInputHandler.status_of_name name = Some code ->
  code ∈ [NOTE_ON; NOTE_OFF; PROGRAM_CHANGE; CONTROLLER_CHANGE; PITCH_BEND;
          POLY_PRESSURE; CHANNEL_PRESSURE].
Proof.
  unfold MidiInputHandler.status_of_name, STATUS_MAP.
  intros H%elem_of_list_to_map_2.
  repeat (apply elem_of_cons in H as [[= _ <-]|H]; [set_solver|]).
  by apply elem_of_nil in H.
Qed.

Lemma low_nibble_range (b : Z) : 0 <= Z.land b 0xF <= 15.
Proof.
  change 0xF with (Z.ones 4). rewrite Z.land_ones by lia.
  pose proof (Z.mod_pos_bound b (2 ^ 4) eq_refl) as Hb.
  change (2 ^ 4) with 16 in *. change (Z.ones 4) with 15. lia.
Qed.

Section LoadedHandler.
Context {W : Type}.
Import MidiInputHandler.

(** In a dictionary that the loader built, nothing is filed under an
    integer that is not a status of [STATUS_MAP]. *)
Lemma filed_codes (ks : gmap (option Z) (list KeyStroke.t)) (code : Z) :
  filed_by_status ks ->
  code ∉ [NOTE_ON; NOTE_OFF; PROGRAM_CHANGE; CONTROLLER_CHANGE; PITCH_BEND;
          POLY_PRESSURE; CHANNEL_PRESSURE] ->
  default [] (ks !! Some code) = [].
Proof.
  intros Hinv Hcode. destruct (ks !! Some code) as [[|r rest]|] eqn:Hk; try done.
  destruct (Hinv (Some code) (r :: rest) r Hk) as (name & _ & Hname); [by left|].
  by apply status_of_name_codes in Hname.
Qed.

(** X12: with a configuration that was loaded, a message is matched only
    to a rule whose channel is equal to the channel of the message, which
    is in 1-16: the integer itself, a float of that value, or [True] for
    channel 1.  A rule without a channel, or whose channel is a string, is
    returned for no message at all. *)
Theorem loaded_rule_has_channel (filename : string) (config : option yaml)
        (ks : gmap (option Z) (list KeyStroke.t)) (s s' : state W)
        (port : string) (event : list Z) (status : Z)
        (channel data1 data2 : option Z) (r : KeyStroke.t) :
  load_config filename config ∅ s = (Ok ks, s') ->
  decode event = Ok (status, channel, data1, data2) ->
  lookup_command (mk port ks) status channel data1 data2 = Ok (Some r) ->
  exists c : Z,
    channel = Some c /\ 1 <= c <= 16
    /\ eq_int (KeyStroke.channel r) c = true
    /\ KeyStroke.channel r <> YNull
    /\ forall t : string, KeyStroke.channel r <> YStr t.
Proof.
  intros Hinv%load_config_filed Hdec. rewrite lookup_command_unfold. simpl.
  destruct event as [|byte0 data]; [discriminate|]. revert Hdec. simpl.
  destruct (Z.ltb_spec byte0 0xF0) as [Hlt|Hge]; intros [= <- <- <- <-].
  - destruct (normalize (Z.land byte0 0xF0) (data !! 1%nat))
      as [[status' data2']|]; [|discriminate].
    intros [_ [Hch _]]%scan_returns. apply channel_ne_false in Hch.
    exists (Z.land byte0 0xF + 1). pose proof (low_nibble_range byte0).
    split; [done|]. split; [lia|]. split; [done|].
    split; [intros Hnull | intros t Ht]; by rewrite ?Hnull, ?Ht in Hch.
  - assert (normalize byte0 (data !! 1%nat) = Ok (byte0, data !! 1%nat)) as ->.
    { unfold normalize. destruct (Z.eqb_spec byte0 NOTE_OFF) as [->|_]; [done|].
      by destruct (Z.eqb_spec byte0 CONTROLLER_CHANGE) as [->|_]. }
    rewrite (filed_codes ks byte0 Hinv); [discriminate|].
    rewrite !elem_of_cons, elem_of_nil. unfold NOTE_ON, NOTE_OFF, PROGRAM_CHANGE,
      CONTROLLER_CHANGE, PITCH_BEND, POLY_PRESSURE, CHANNEL_PRESSURE. lia.
Qed.

(** X13: with a configuration that was loaded, a system message (first
    byte 0xF0 or more) is matched to no rule: [__call__] logs it, returns
    normally, and leaves the state of [sendKey] as it is. *)
Theorem system_message_ignored {SK : SendKey W} (filename : string)
        (config : option yaml)
        (ks : gmap (option Z) (list KeyStroke.t)) (s s' : state W)
        (port : string) (byte0 : Z) (data : list Z) (s1 : state W) :
  load_config filename config ∅ s = (Ok ks, s') ->
  0xF0 <= byte0 ->
  call (mk port ks) (byte0 :: data) s1
  = (Ok tt,
     mkState (world s1)
       (trace s1 ++ [Log DEBUG (MsgEvent byte0 None (data !! 0%nat) (data !! 1%nat));
                     Log DEBUG MsgNoCmd])).
Proof.
  intros Hinv%load_config_filed Hge. apply call_unmatched.
  - simpl. by destruct (Z.ltb_spec byte0 0xF0); [lia|].
  - rewrite lookup_command_unfold. simpl.
    assert (normalize byte0 (data !! 1%nat) = Ok (byte0, data !! 1%nat)) as ->.
    { unfold normalize. destruct (Z.eqb_spec byte0 NOTE_OFF) as [->|_]; [done|].
      by destruct (Z.eqb_spec byte0 CONTROLLER_CHANGE) as [->|_]. }
    rewrite (filed_codes ks byte0 Hinv); [reflexivity|].
    rewrite !elem_of_cons, elem_of_nil. unfold NOTE_ON, NOTE_OFF, PROGRAM_CHANGE,
      CONTROLLER_CHANGE, PITCH_BEND, POLY_PRESSURE, CHANNEL_PRESSURE. lia.
Qed.

End LoadedHandler.

Lemma loaded_rule_has_channel_witness :
  exists c : Z,
    Some 1 = Some c /\ 1 <= c <= 16
    /\ eq_int (KeyStroke.channel Sample.rule_noteon_60) c = true
    /\ KeyStroke.channel Sample.rule_noteon_60 <> YNull
    /\ forall t : string, KeyStroke.channel Sample.rule_noteon_60 <> YStr t.
Proof.
  apply (loaded_rule_has_channel (W := unit) Sample.filename
           (Some (YSeq [Sample.noteon_60]))
           (list_to_map [(Some NOTE_ON, [Sample.rule_noteon_60])])
           (mkState tt [])
           (mkState tt [Log DEBUG (MsgConfig (YStr "") (YStr "") ["B"%string])])
           "MIDI input" [0x90; 60; 100] NOTE_ON (Some 1) (Some 60) (Some 100));
    vm_compute; reflexivity.
Defined.

Lemma system_message_ignored_witness :
  MidiInputHandler.call
    (MidiInputHandler.mk "MIDI input"
       (list_to_map [(Some NOTE_ON, [Sample.rule_noteon_60])]))
    [0xF8] Sample.bound
  = (Ok tt,
     mkState (world Sample.bound)
       (trace Sample.bound
        ++ [Log DEBUG (MsgEvent 0xF8 None ([] !! 0%nat) ([] !! 1%nat));
            Log DEBUG MsgNoCmd])).
Proof.
  apply (system_message_ignored Sample.filename (Some (YSeq [Sample.noteon_60]))
           (list_to_map [(Some NOTE_ON, [Sample.rule_noteon_60])])
           Sample.bound
           (mkState (world Sample.bound)
                    [Log DEBUG (MsgConfig (YStr "") (YStr "") ["B"%string])]));
    [vm_compute; reflexivity | lia].
Defined.

(** ** Key injection through [sendKey] *)

Section Injection.
Import MidiInputHandler.

Lemma SetKeyboardConsts_bound (key_binds : list (string * string))
      (sent : list sendKey.KeyBdInput) (k : string) (code : Z) :
  scan_code key_binds k = Some code ->
  sendKey.SetKeyboardConsts k (sendKey.mkOs (Some key_binds) sent)
  = (Ok code, sendKey.mkOs (Some key_binds) sent).
Proof.
  unfold scan_code, sendKey.SetKeyboardConsts. simpl.
  destruct (sendKey.lookup k key_binds) as [v|]; [|discriminate].
  by intros ->.
Qed.

Lemma SetKeyboardConsts_unbound (key_binds : list (string * string))
      (sent : list sendKey.KeyBdInput) (k : string) :
  scan_code key_binds k = None ->
  exists e : exn,
    sendKey.SetKeyboardConsts k (sendKey.mkOs (Some key_binds) sent)
    = (Raise e, sendKey.mkOs (Some key_binds) sent).
Proof.
  unfold scan_code, sendKey.SetKeyboardConsts. simpl.
  destruct (sendKey.lookup k key_binds) as [v|]; [|by exists KeyError].
  intros ->. by exists ValueError.
Qed.

Lemma press_bound (key_binds : list (string * string))
      (sent : list sendKey.KeyBdInput) (tr : list effect) (k : string) (code : Z) :
  scan_code key_binds k = Some code ->
  press k (mkState (sendKey.mkOs (Some key_binds) sent) tr)
  = (Ok tt,
     mkState (sendKey.mkOs (Some key_binds) (sent ++ [key_down code]))
       (tr ++ [Log INFO (MsgPress k); Call_SetKeyboardConsts k; Call_PressKey code])).
Proof.
  intros Hk. unfold press, call_sendKey. unfold_M. simpl.
  rewrite (SetKeyboardConsts_bound _ _ _ _ Hk). simpl.
  by rewrite <- !app_assoc.
Qed.

Lemma release_bound (key_binds : list (string * string))
      (sent : list sendKey.KeyBdInput) (tr : list effect) (k : string) (code : Z) :
  scan_code key_binds k = Some code ->
  release k (mkState (sendKey.mkOs (Some key_binds) sent) tr)
  = (Ok tt,
     mkState (sendKey.mkOs (Some key_binds) (sent ++ [key_up code]))
       (tr ++ [Log INFO (MsgRelease k); Call_SetKeyboardConsts k;
               Call_ReleaseKey code])).
Proof.
  intros Hk. unfold release, call_sendKey. unfold_M. simpl.
  rewrite (SetKeyboardConsts_bound _ _ _ _ Hk). simpl.
  by rewrite <- !app_assoc.
Qed.

Lemma press_unbound (key_binds : list (string * string))
      (sent : list sendKey.KeyBdInput) (tr : list effect) (k : string) :
  scan_code key_binds k = None ->
  exists e : exn,
    press k (mkState (sendKey.mkOs (Some key_binds) sent) tr)
    = (Raise e,
       mkState (sendKey.mkOs (Some key_binds) sent)
         (tr ++ [Log INFO (MsgPress k); Call_SetKeyboardConsts k])).
Proof.
  intros Hk. destruct (SetKeyboardConsts_unbound key_binds sent k Hk) as [e He].
  exists e. unfold press, call_sendKey. unfold_M. simpl. rewrite He. simpl.
  by rewrite <- !app_assoc.
Qed.

(** A phase of [do_command], when every key has a scan code. *)
Lemma for_each_bound (key_binds : list (string * string))
      (step : string -> M sendKey.os unit) (input : Z -> sendKey.KeyBdInput)
      (keys : list string) :
  (forall (k : string) (code : Z) (sent : list sendKey.KeyBdInput) (tr : list effect),
      scan_code key_binds k = Some code ->
      exists tr' : list effect,
        step k (mkState (sendKey.mkOs (Some key_binds) sent) tr)
        = (Ok tt, mkState (sendKey.mkOs (Some key_binds) (sent ++ [input code])) tr')) ->
  forall (codes : list Z) (sent : list sendKey.KeyBdInput) (tr : list effect),
    mapM (scan_code key_binds) keys = Some codes ->
    exists tr' : list effect,
      for_each step keys (mkState (sendKey.mkOs (Some key_binds) sent) tr)
      = (Ok tt,
         mkState (sendKey.mkOs (Some key_binds) (sent ++ map input codes)) tr').
Proof.
  intros Hstep. induction keys as [|k keys IH]; intros codes sent tr.
  - intros [= <-]. exists tr. simpl. by rewrite app_nil_r.
  - simpl mapM.
    destruct (scan_code key_binds k) as [code|] eqn:Hk; [|discriminate].
    destruct (mapM (scan_code key_binds) keys) as [codes'|] eqn:Hks; [|discriminate].
    simpl. intros [= <-].
    destruct (Hstep k code sent tr Hk) as [tr1 Hk1].
    destruct (IH codes' (sent ++ [input code]) tr1 eq_refl) as [tr' Htr'].
    exists tr'. unfold mbind, M_bind. rewrite Hk1, Htr'. simpl.
    by rewrite <- app_assoc.
Qed.

Lemma for_each_app {W A : Type} (step : A -> M W unit) (l1 l2 : list A)
      (s : state W) :
  for_each step (l1 ++ l2) s = (for_each step l1 ;; for_each step l2) s.
Proof.
  revert s. induction l1 as [|x l1 IH]; intros s; [reflexivity|].
  simpl. unfold mbind, M_bind. destruct (step x s) as [[[]|e] s1]; [|reflexivity].
  rewrite IH. reflexivity.
Qed.

(** X14: a stroke, with every key bound.  When the bindings give a scan
    code for every key of the rule, [do_command] returns normally and
    [SendInput] is handed, after what it was handed before: a key-down for
    every key, in the order of the keys, when the action is a press; a
    key-up for every key, in that order, when it is a release; all the
    key-downs and then all the key-ups, both in that order, when it is a
    press and release. *)
Theorem do_command_stroke (key_binds : list (string * string)) (keys : list string)
        (codes : list Z) (sent : list sendKey.KeyBdInput) (tr : list effect) :
  mapM (scan_code key_binds) keys = Some codes ->
  (exists tr' : list effect,
      do_command keys KEY_DOWN (mkState (sendKey.mkOs (Some key_binds) sent) tr)
      = (Ok tt,
         mkState (sendKey.mkOs (Some key_binds) (sent ++ map key_down codes)) tr'))
  /\ (exists tr' : list effect,
        do_command keys KEY_UP (mkState (sendKey.mkOs (Some key_binds) sent) tr)
        = (Ok tt,
           mkState (sendKey.mkOs (Some key_binds) (sent ++ map key_up codes)) tr'))
  /\ (exists tr' : list effect,
        do_command keys KEY_DOWN_UP (mkState (sendKey.mkOs (Some key_binds) sent) tr)
        = (Ok tt,
           mkState (sendKey.mkOs (Some key_binds)
                      (sent ++ map key_down codes ++ map key_up codes)) tr')).
Proof.
  intros Hcodes.
  assert (Hpress : forall sent0 tr0, exists tr' : list effect,
             for_each press keys (mkState (sendKey.mkOs (Some key_binds) sent0) tr0)
             = (Ok tt, mkState (sendKey.mkOs (Some key_binds)
                                  (sent0 ++ map key_down codes)) tr')).
  { intros sent0 tr0. apply for_each_bound; [|done].
    intros k code sent1 tr1 Hk. eexists. by apply press_bound. }
  assert (Hrelease : forall sent0 tr0, exists tr' : list effect,
             for_each release keys (mkState (sendKey.mkOs (Some key_binds) sent0) tr0)
             = (Ok tt, mkState (sendKey.mkOs (Some key_binds)
                                  (sent0 ++ map key_up codes)) tr')).
  { intros sent0 tr0. apply for_each_bound; [|done].
    intros k code sent1 tr1 Hk. eexists. by apply release_bound. }
  split; [|split].
  - change KEY_DOWN with (code_of PressOnly). rewrite do_command_spec.
    unfold spec_dispatch, spec_sequence, try_except.
    destruct (Hpress sent tr) as [tr' ->]. by exists tr'.
  - change KEY_UP with (code_of ReleaseOnly). rewrite do_command_spec.
    unfold spec_dispatch, spec_sequence, try_except.
    destruct (Hrelease sent tr) as [tr' ->]. by exists tr'.
  - change KEY_DOWN_UP with (code_of PressThenRelease). rewrite do_command_spec.
    unfold spec_dispatch, spec_sequence, try_except. unfold mbind, M_bind.
    destruct (Hpress sent tr) as [tr1 ->]. unfold log, emit. simpl.
    destruct (Hrelease (sent ++ map key_down codes)
                       ((tr1 ++ [Log INFO MsgDelay]) ++ [Sleep 10])) as [tr' ->].
    exists tr'. by rewrite <- app_assoc.
Qed.

(** X15: no rollback.  When the keys before [k] are bound and [k] is not,
    a press, or a press and release, returns normally with the exception
    logged last; the keys before [k] have been given a key-down and nothing
    else is handed to [SendInput]: no key-down for the keys after [k] and
    no key-up at all. *)
Theorem do_command_no_rollback (key_binds : list (string * string))
        (pre post : list string) (k : string) (codes : list Z) (action_type : Z)
        (sent : list sendKey.KeyBdInput) (tr : list effect) :
  mapM (scan_code key_binds) pre = Some codes ->
  scan_code key_binds k = None ->
  action_type = KEY_DOWN \/ action_type = KEY_DOWN_UP ->
  exists (e : exn) (tr' : list effect),
    do_command (pre ++ k :: post) action_type
               (mkState (sendKey.mkOs (Some key_binds) sent) tr)
    = (Ok tt,
       mkState (sendKey.mkOs (Some key_binds) (sent ++ map key_down codes))
               (tr' ++ [Log ERROR (MsgErrorCalling e)])).
Proof.
  intros Hcodes Hk Hat.
  assert (Hpre : exists tr1 : list effect,
             for_each press pre (mkState (sendKey.mkOs (Some key_binds) sent) tr)
             = (Ok tt, mkState (sendKey.mkOs (Some key_binds)
                                  (sent ++ map key_down codes)) tr1)).
  { apply for_each_bound; [|done].
    intros k0 code sent1 tr1 Hk0. eexists. by apply press_bound. }
  destruct Hpre as [tr1 Hpre].
  destruct (press_unbound key_binds (sent ++ map key_down codes) tr1 k Hk)
    as [e He].
  assert (Hfail : for_each press (pre ++ k :: post)
                    (mkState (sendKey.mkOs (Some key_binds) sent) tr)
                  = (Raise e,
                     mkState (sendKey.mkOs (Some key_binds) (sent ++ map key_down codes))
                       (tr1 ++ [Log INFO (MsgPress k); Call_SetKeyboardConsts k]))).
  { rewrite for_each_app. unfold mbind, M_bind. rewrite Hpre. simpl.
    unfold mbind, M_bind. by rewrite He. }
  exists e, (tr1 ++ [Log INFO (MsgPress k); Call_SetKeyboardConsts k]).
  unfold do_command, try_except, do_command_body.
  destruct Hat as [-> | ->]; simpl; unfold mbind, M_bind; by rewrite Hfail.
Qed.

End Injection.

Lemma do_command_stroke_witness :
  exists tr' : list effect,
    MidiInputHandler.do_command ["F1"; "F2"]%string KEY_DOWN_UP Sample.bound
    = (Ok tt,
       mkState (sendKey.mkOs (Some [("F1", "0x3B"); ("F2", "0x3C")]%string)
                  ([] ++ map key_down [0x3B; 0x3C] ++ map key_up [0x3B; 0x3C])) tr').
Proof.
  destruct (do_command_stroke [("F1", "0x3B"); ("F2", "0x3C")]%string
              ["F1"; "F2"]%string [0x3B; 0x3C] [] []) as (_ & _ & H);
    [reflexivity | exact H].
Defined.

Lemma do_command_no_rollback_witness :
  exists (e : exn) (tr' : list effect),
    MidiInputHandler.do_command (["F1"%string] ++ "F9"%string :: ["F2"%string])
                                KEY_DOWN_UP Sample.bound
    = (Ok tt,
       mkState (sendKey.mkOs (Some [("F1", "0x3B"); ("F2", "0x3C")]%string)
                  ([] ++ map key_down [0x3B]))
               (tr' ++ [Log ERROR (MsgErrorCalling e)])).
Proof.
  apply (do_command_no_rollback [("F1", "0x3B"); ("F2", "0x3C")]%string
           ["F1"%string] ["F2"%string] "F9" [0x3B] KEY_DOWN_UP [] []);
    [reflexivity | reflexivity | by right].
Defined.

(** ** The keys of a rule *)

Section Keys.
Import PyStr.

Lemma split_chars_tokens (l : list ascii) :
  forall (cur : list ascii) (t : string),
    Forall (fun c => is_space c = false) cur ->
    t ∈ split_chars cur l ->
    t <> EmptyString
    /\ Forall (fun c => is_space c = false) (list_ascii_of_string t).
Proof.
  assert (Htoken : forall cur : list ascii,
             cur <> [] -> Forall (fun c => is_space c = false) cur ->
             string_of_list_ascii (rev cur) <> EmptyString
             /\ Forall (fun c => is_space c = false)
                       (list_ascii_of_string (string_of_list_ascii (rev cur)))).
  { intros cur Hne Hcur. split.
    - intros Hempty. apply (f_equal list_ascii_of_string) in Hempty.
      rewrite list_ascii_of_string_of_list_ascii in Hempty. simpl in Hempty.
      apply (f_equal (@rev ascii)) in Hempty. rewrite rev_involutive in Hempty.
      by subst.
    - rewrite list_ascii_of_string_of_list_ascii. by apply Forall_rev. }
  induction l as [|c l IH]; intros cur t Hcur; simpl.
  - destruct cur as [|a cur]; [by intros ?%elem_of_nil|].
    intros ->%list_elem_of_singleton. by apply Htoken.
  - destruct (is_space c) eqn:Hc.
    + destruct cur as [|a cur]; [by apply IH|].
      intros [->|Hin]%elem_of_cons; [by apply Htoken | by apply (IH [])].
    + apply IH. by constructor.
Qed.

Lemma split_chars_nil (l : list ascii) :
  forall cur : list ascii,
    split_chars cur l = [] <-> cur = [] /\ Forall (fun c => is_space c = true) l.
Proof.
  induction l as [|c l IH]; intros cur; simpl.
  - destruct cur; [by split | split; [discriminate | by intros [? _]]].
  - destruct (is_space c) eqn:Hc.
    + destruct cur as [|a cur].
      * rewrite IH. split; intros [H1 H2]; split; try done.
        -- by constructor.
        -- by inversion H2.
      * split; [discriminate | by intros [? _]].
    + rewrite IH. split; [by intros [? _]|].
      intros [_ H]. inversion H; congruence.
Qed.

(** X16: the keys of a rule are the words of its ["keys"] string: every
    key is a non-empty string without white space, and the rule has no key
    exactly when the string is empty or blank.  Whether [KeyStroke] builds
    the rule does not depend on that string: with the other arguments the
    same, it builds a rule for every string, the empty and the blank ones
    too. *)
Theorem keystroke_keys (name description status channel data : yaml)
        (k : string) (r : KeyStroke.t) :
  KeyStroke.init name description status channel data (YStr k) = Ok r ->
  KeyStroke.keys r = split k
  /\ (forall key : string,
        key ∈ KeyStroke.keys r ->
        key <> EmptyString
        /\ Forall (fun c => is_space c = false) (list_ascii_of_string key))
  /\ (KeyStroke.keys r = []
      <-> Forall (fun c => is_space c = true) (list_ascii_of_string k))
  /\ (forall k' : string,
        exists r' : KeyStroke.t,
          KeyStroke.init name description status channel data (YStr k') = Ok r'
          /\ KeyStroke.keys r' = split k'
          /\ KeyStroke.data r' = KeyStroke.data r).
Proof.
  intros Hinit.
  assert (Hkeys : KeyStroke.keys r = split k).
  { revert Hinit. unfold KeyStroke.init.
    destruct data as [|b|z|x|d|items|m]; try discriminate; try (by intros [= <-]).
    destruct (mapM int (split d)); [by intros [= <-] | discriminate]. }
  rewrite Hkeys. split; [reflexivity|]. split; [|split].
  - intros key. by apply split_chars_tokens.
  - unfold split. rewrite split_chars_nil. by split; [intros [_ ?] | ].
  - intros k'. revert Hinit. unfold KeyStroke.init.
    destruct data as [|b|z|x|d|items|m]; try discriminate;
      try (intros [= <-]; eexists; by repeat split).
    destruct (mapM int (split d)); [|discriminate].
    intros [= <-]. eexists. by repeat split.
Qed.

End Keys.

Lemma keystroke_keys_witness :
  KeyStroke.init (YStr "") (YStr "") (YStr "controllerchange") (YInt 16)
                 (YStr "14 65") (YStr "  ")
  = Ok (KeyStroke.mk (YStr "") (YStr "") (YStr "controllerchange") (YInt 16)
                     [] (DList [14; 65]))
  /\ (KeyStroke.keys (KeyStroke.mk (YStr "") (YStr "") (YStr "controllerchange")
                                   (YInt 16) [] (DList [14; 65])) = []
      <-> Forall (fun c => PyStr.is_space c = true) (list_ascii_of_string "  "))
  /\ exists r' : KeyStroke.t,
      KeyStroke.init (YStr "") (YStr "") (YStr "controllerchange") (YInt 16)
                     (YStr "14 65") (YStr "") = Ok r'
      /\ KeyStroke.keys r' = PyStr.split ""
      /\ KeyStroke.data r' = DList [14; 65].
Proof.
  split; [reflexivity|].
  destruct (keystroke_keys (YStr "") (YStr "") (YStr "controllerchange") (YInt 16)
              (YStr "14 65") "  "
              (KeyStroke.mk (YStr "") (YStr "") (YStr "controllerchange")
                            (YInt 16) [] (DList [14; 65])))
    as (_ & _ & Hblank & Hany); [reflexivity|].
  split; [exact Hblank | exact (Hany EmptyString)].
Defined.

(** ** Loading and lookup together *)

Section Found.
Context {W : Type}.
Import MidiInputHandler.

Lemma scan_skip_prefix (status : Z) (channel data1 data2 : option Z)
      (pre rules : list KeyStroke.t) :
  Forall (passes_over status channel data1 data2) pre ->
  scan status channel data1 data2 (pre ++ rules)
  = scan status channel data1 data2 rules.
Proof.
  induction 1 as [|k pre Hk Hpre IH]; [reflexivity|].
  simpl app. by rewrite scan_passes_over.
Qed.

(** X17: a rule that is loaded is found.  A mapping from which [KeyStroke]
    builds the rule [r], with a known status name, is filed under the code
    of that name, after the rules that are there; the lookup then returns
    [r] for every message of that normalized status that [r] accepts and
    that the rules filed before it pass over. *)
Theorem loaded_rule_found (entries : list (string * yaml)) (r : KeyStroke.t)
        (name : string) (code : Z) (cmd : option KeyStroke.t)
        (ks : gmap (option Z) (list KeyStroke.t)) (s : state W) :
  is_dict_with_keys (YMap entries) = true ->
  KeyStroke.of_kwargs entries = Ok r ->
  KeyStroke.status r = YStr name ->
  status_of_name name = Some code ->
  load_entries [YMap entries] cmd ks s
  = (Ok (file_under (Some code) r ks),
     mkState (world s)
       (trace s ++ [Log DEBUG (MsgConfig (KeyStroke.name r)
                                         (KeyStroke.description r)
                                         (KeyStroke.keys r))]))
  /\ forall (port : string) (status : Z) (channel data1 data2 data2' : option Z),
      normalize status data2 = Ok (code, data2') ->
      Forall (passes_over code channel data1 data2') (default [] (ks !! Some code)) ->
      accepts code channel data1 data2' r ->
      lookup_command (mk port (file_under (Some code) r ks))
                     status channel data1 data2
      = Ok (Some r).
Proof.
  intros Hdict Hbuild Hst Hname. split.
  - simpl. unfold build. rewrite Hdict, Hbuild. simpl.
    unfold file_rule. rewrite Hst, Hname. reflexivity.
  - intros port status channel data1 data2 data2' Hn Hpre Hacc.
    rewrite lookup_command_unfold, Hn. simpl. rewrite file_under_same. simpl.
    rewrite scan_skip_prefix by done. by apply scan_accepts_head.
Qed.

End Found.

Lemma loaded_rule_found_witness :
  MidiInputHandler.lookup_command
    (MidiInputHandler.mk "MIDI input"
       (MidiInputHandler.file_under (Some NOTE_ON) Sample.rule_noteon_60
          (list_to_map [(Some NOTE_ON, [Sample.noteon_any_channel])])))
    NOTE_OFF (Some 1) (Some 60) (Some 0)
  = Ok (Some Sample.rule_noteon_60).
Proof.
  destruct (loaded_rule_found (W := unit)
              [("status", YStr "noteon"); ("channel", YInt 1);
               ("data", YInt 60); ("keys", YStr "B")]%string
              Sample.rule_noteon_60 "noteon" NOTE_ON None
              (list_to_map [(Some NOTE_ON, [Sample.noteon_any_channel])])
              (mkState tt [])) as [_ Hfound];
    [reflexivity | reflexivity | reflexivity | reflexivity |].
  apply (Hfound "MIDI input"%string NOTE_OFF (Some 1) (Some 60) (Some 0) (Some 0)).
  - reflexivity.
  - vm_compute. constructor; [|constructor]. left. exists 1. split; reflexivity.
  - split; [reflexivity|]. left. split; reflexivity.
Defined.

(** ** Starting *)

Section Start.
Context {W : Type}.

Lemma logs_only_ret {A : Type} (a : A) : logs_only (mret a : M W A).
Proof. intros s. split; [done|]. exists []. by rewrite app_nil_r. Qed.

Lemma logs_only_raise {A : Type} (e : exn) : logs_only (raise e : M W A).
Proof. intros s. split; [done|]. exists []. by rewrite app_nil_r. Qed.

Lemma logs_only_lift {A : Type} (r : result A) : logs_only (lift r : M W A).
Proof. intros s. split; [done|]. exists []. by rewrite app_nil_r. Qed.

Lemma logs_only_log (lvl : level) (m : logmsg) : logs_only (log lvl m : M W unit).
Proof.
  intros s. split; [done|]. exists [Log lvl m]. split; [done|].
  by constructor.
Qed.

Lemma logs_only_bind {A B : Type} (m : M W A) (f : A -> M W B) :
  logs_only m -> (forall a : A, logs_only (f a)) -> logs_only (m ≫= f).
Proof.
  intros Hm Hf s. unfold mbind, M_bind.
  destruct (Hm s) as (Hw & tr & Htr & Hlog).
  destruct (m s) as [[a|e] s1]; simpl in Hw, Htr.
  - destruct (Hf a s1) as (Hw' & tr' & Htr' & Hlog').
    split; [congruence|]. exists (tr ++ tr').
    split; [by rewrite Htr', Htr, app_assoc | by apply Forall_app].
  - split; [done|]. by exists tr.
Qed.

Lemma logs_only_file_rule (cmd : KeyStroke.t)
      (ks : gmap (option Z) (list KeyStroke.t)) :
  logs_only (MidiInputHandler.file_rule (W := W) cmd ks).
Proof.
  unfold MidiInputHandler.file_rule.
  destruct (KeyStroke.status cmd); try apply logs_only_raise.
  apply logs_only_bind; [|intros _; apply logs_only_bind;
                          [apply logs_only_log | intros _; apply logs_only_ret]].
  destruct (MidiInputHandler.status_of_name s); [apply logs_only_ret|].
  destruct (PyStr.int s); [apply logs_only_ret | apply logs_only_log].
Qed.

Lemma logs_only_load_entries (data : list yaml) :
  forall (cmd : option KeyStroke.t) (ks : gmap (option Z) (list KeyStroke.t)),
    logs_only (MidiInputHandler.load_entries (W := W) data cmd ks).
Proof.
  induction data as [|cmdspec rest IH]; intros cmd ks; simpl;
    [apply logs_only_ret|].
  destruct (MidiInputHandler.build cmdspec) as [assigned|e].
  - destruct (match assigned with Some c => Some c | None => cmd end);
      [|apply logs_only_raise].
    apply logs_only_bind; [apply logs_only_file_rule | intros ks'; apply IH].
  - destruct e; try apply logs_only_raise;
      (apply logs_only_bind; [apply logs_only_log | intros _; apply logs_only_raise]).
Qed.

Lemma logs_only_init (port filename : string) (config : option yaml) :
  logs_only (MidiInputHandler.init (W := W) port filename config).
Proof.
  unfold MidiInputHandler.init, MidiInputHandler.load_config.
  apply logs_only_bind; [|intros ks; apply logs_only_ret].
  destruct config as [data|]; [|apply logs_only_raise].
  apply logs_only_bind; [apply logs_only_lift | intros items; apply logs_only_load_entries].
Qed.

(** X18: starting.  When the port cannot be opened ([IOError] or
    [ValueError]), [main] returns the message "Could not open MIDI input"
    formatted with that exception, and does not read the configuration.
    When the port is opened and the file of the configuration does not
    exist, [main] raises [IOError] with the message "Config file not found"
    formatted with the name of the file.  Whenever the port is opened and
    [main] raises, it has by then only written to the log, after opening
    the port, and no handler has been attached to the port.  When [main]
    reaches the main loop, the handler attached is the one that [__init__]
    returns for the port and the configuration. *)
Theorem main_start (port filename : string) (config : option yaml) (s : state W) :
  (forall exc : exn,
      (exists msg : message, exc = IOError msg) \/ exc = ValueError ->
      main (Raise exc) filename config s
      = (Ok (inr (Some (CouldNotOpenMidiInput exc))),
         mkState (world s) (trace s ++ [Call_open_midiinput])))
  /\ main (Ok port) filename None s
     = (Raise (IOError (ConfigFileNotFound filename)),
        mkState (world s)
                (trace s ++ [Call_open_midiinput; Log DEBUG MsgAttaching]))
  /\ (forall (e : exn) (s' : state W),
        main (Ok port) filename config s = (Raise e, s') ->
        world s' = world s
        /\ exists logs : list effect,
            trace s' = trace s ++ Call_open_midiinput :: logs
            /\ Forall is_log logs)
  /\ (forall (handler : MidiInputHandler.t + option exit_message) (s' : state W),
        main (Ok port) filename config s = (Ok handler, s') ->
        exists (h : MidiInputHandler.t) (s1 : state W),
          handler = inl h
          /\ MidiInputHandler.init port filename config
               (mkState (world s)
                  ((trace s ++ [Call_open_midiinput]) ++ [Log DEBUG MsgAttaching]))
             = (Ok h, s1)
          /\ s' = mkState (world s1)
                    ((trace s1 ++ [Call_set_callback]) ++ [Log INFO MsgMainLoop])).
Proof.
  split; [|split; [|split]].
  - intros exc [[msg ->]| ->]; reflexivity.
  - unfold main, MidiInputHandler.init, MidiInputHandler.load_config.
    unfold_M. simpl. by rewrite <- app_assoc.
  - intros e s'. unfold main. unfold_M. simpl.
    destruct (logs_only_init port filename config
                (mkState (world s)
                   ((trace s ++ [Call_open_midiinput]) ++ [Log DEBUG MsgAttaching])))
      as (Hw & logs & Htr & Hlogs).
    destruct (MidiInputHandler.init port filename config _) as [[h|e'] s1];
      [discriminate|].
    intros [= _ <-]. simpl in Hw, Htr. split; [done|].
    exists (Log DEBUG MsgAttaching :: logs). split.
    + rewrite Htr, <- !app_assoc. reflexivity.
    + by constructor.
  - intros handler s'. unfold main. unfold_M. simpl.
    destruct (MidiInputHandler.init port filename config _) as [[h|e'] s1] eqn:Hinit;
      [|discriminate].
    intros [= <- <-]. by exists h, s1.
Qed.

End Start.

Lemma main_start_witness :
  main (W := unit) (Raise (IOError (Other "no such port"))) Sample.filename None
       (mkState tt [])
  = (Ok (inr (Some (CouldNotOpenMidiInput (IOError (Other "no such port"))))),
     mkState tt ([] ++ [Call_open_midiinput]))
  /\ (world (snd (main (W := unit) (Ok "MIDI input"%string) Sample.filename None
                       (mkState tt []))) = tt
      /\ exists logs : list effect,
          trace (snd (main (W := unit) (Ok "MIDI input"%string) Sample.filename None
                           (mkState tt [])))
          = [] ++ Call_open_midiinput :: logs
          /\ Forall is_log logs).
Proof.
  destruct (main_start (W := unit) "MIDI input" Sample.filename None (mkState tt []))
    as (Hopen & _ & Hraise & _).
  split.
  - apply Hopen. left. by eexists.
  - apply (Hraise (IOError (ConfigFileNotFound Sample.filename))). reflexivity.
Defined.

(** ** A note, pressed and released *)

Section Note.
Import MidiInputHandler.

(** X19: a note-on and the note-off that follows.  When the lookup returns
    the rule [r] for both messages and every key of [r] is bound, the two
    calls of the handler, one after the other, return normally and hand to
    [SendInput] a key-down for every key of [r], in the order of the keys,
    and then a key-up for every key, in the same order. *)
Theorem note_on_then_note_off (self : t) (key_binds : list (string * string))
        (on off : list Z) (channel data1 v_on v_off : option Z)
        (r : KeyStroke.t) (codes : list Z)
        (sent : list sendKey.KeyBdInput) (tr : list effect) :
  decode on = Ok (NOTE_ON, channel, data1, v_on) ->
  decode off = Ok (NOTE_OFF, channel, data1, v_off) ->
  lookup_command self NOTE_ON channel data1 v_on = Ok (Some r) ->
  lookup_command self NOTE_OFF channel data1 v_off = Ok (Some r) ->
  mapM (scan_code key_binds) (KeyStroke.keys r) = Some codes ->
  exists tr' : list effect,
    (call self on ;; call self off)
      (mkState (sendKey.mkOs (Some key_binds) sent) tr)
    = (Ok tt,
       mkState (sendKey.mkOs (Some key_binds)
                  (sent ++ map key_down codes ++ map key_up codes)) tr').
Proof.
  intros Hon Hoff Hlon Hloff Hcodes. unfold mbind, M_bind.
  rewrite (call_matched _ _ _ _ _ _ _ _ Hon Hlon).
  change (action_type_of NOTE_ON) with (code_of PressOnly).
  rewrite do_command_spec. unfold spec_dispatch, spec_sequence, try_except.
  unfold event_logged. simpl world. simpl trace.
  destruct (for_each_bound key_binds press key_down (KeyStroke.keys r)) with
    (codes := codes) (sent := sent)
    (tr := tr ++ [Log DEBUG (MsgEvent NOTE_ON channel data1 v_on)])
    as [tr1 ->]; [|done|].
  { intros k code sent1 tr1 Hk. eexists. by apply press_bound. }
  rewrite (call_matched _ _ _ _ _ _ _ _ Hoff Hloff).
  change (action_type_of NOTE_OFF) with (code_of ReleaseOnly).
  rewrite do_command_spec. unfold spec_dispatch, spec_sequence, try_except.
  unfold event_logged. simpl world. simpl trace.
  destruct (for_each_bound key_binds release key_up (KeyStroke.keys r)) with
    (codes := codes) (sent := sent ++ map key_down codes)
    (tr := tr1 ++ [Log DEBUG (MsgEvent NOTE_OFF channel data1 v_off)])
    as [tr2 ->]; [|done|].
  { intros k code sent1 tr0 Hk. eexists. by apply release_bound. }
  exists tr2. by rewrite <- app_assoc.
Qed.

End Note.

Lemma note_on_then_note_off_witness :
  exists tr' : list effect,
    (MidiInputHandler.call
       (Sample.handler_of [(Some CONTROLLER_CHANGE, [Sample.rule_controllerchange_14_65]);
                           (Some NOTE_ON,
                            [KeyStroke.mk (YStr "") (YStr "") (YStr "noteon") (YInt 1)
                                          ["F1"; "F2"]%string (DInt 60)])])
       [0x90; 60; 100] ;;
     MidiInputHandler.call
       (Sample.handler_of [(Some CONTROLLER_CHANGE, [Sample.rule_controllerchange_14_65]);
                           (Some NOTE_ON,
                            [KeyStroke.mk (YStr "") (YStr "") (YStr "noteon") (YInt 1)
                                          ["F1"; "F2"]%string (DInt 60)])])
       [0x80; 60; 0])
      (mkState (sendKey.mkOs (Some [("F1", "0x3B"); ("F2", "0x3C")]%string) []) [])
    = (Ok tt,
       mkState (sendKey.mkOs (Some [("F1", "0x3B"); ("F2", "0x3C")]%string)
                  ([] ++ map key_down [0x3B; 0x3C] ++ map key_up [0x3B; 0x3C])) tr').
Proof.
  apply (note_on_then_note_off _ _ [0x90; 60; 100] [0x80; 60; 0]
           (Some 1) (Some 60) (Some 100) (Some 0)
           (KeyStroke.mk (YStr "") (YStr "") (YStr "noteon") (YInt 1)
                         ["F1"; "F2"]%string (DInt 60)));
    vm_compute; reflexivity.
Defined.

(** ** When the handler cannot raise *)

Section NoException.
Import MidiInputHandler.

Lemma pair_eq_complete (d : rule_data) (data1 data2 : option Z) :
  (forall l : list Z, d = DList l -> (2 <= length l)%nat) ->
  exists b : bool, pair_eq d data1 data2 = Ok b.
Proof.
  intros Hd. destruct d as [| |l]; simpl; eauto.
  specialize (Hd l eq_refl).
  destruct l as [|a [|b l]]; simpl in Hd; try lia.
  destruct (int_eq a data1); eauto.
Qed.

Lemma scan_complete (status : Z) (channel data1 data2 : option Z)
      (rules : list KeyStroke.t) :
  Forall (fun r => forall l : list Z,
              KeyStroke.data r = DList l -> (2 <= length l)%nat) rules ->
  exists found : option KeyStroke.t,
    scan status channel data1 data2 rules = Ok found.
Proof.
  induction 1 as [|r rules Hr Hrules IH]; simpl; [eauto|].
  destruct (match channel with
            | Some c => channel_ne (KeyStroke.channel r) c
            | None => false
            end); [exact IH|].
  destruct ((status =? NOTE_ON) && data_eq (KeyStroke.data r) data1); [eauto|].
  destruct (pair_eq_complete (KeyStroke.data r) data1 data2 Hr) as [[|] ->];
    [eauto | exact IH].
Qed.

(** X20: the handler does not raise on a message that is not empty, when
    every list that is the data of a rule has at least two integers and
    the message, if it is a controller change, has a value: [__call__]
    returns normally, whatever [sendKey] does. *)
Theorem call_returns {W : Type} {SK : SendKey W} (self : t) (event : list Z)
        (status : Z) (channel data1 data2 : option Z) (s : state W) :
  decode event = Ok (status, channel, data1, data2) ->
  (status = CONTROLLER_CHANGE -> is_Some data2) ->
  pairs_complete (keystrokes self) ->
  exists s' : state W, call self event s = (Ok tt, s').
Proof.
  intros Hdec Hcc Hpairs.
  assert (Hlook : exists found : option KeyStroke.t,
             lookup_command self status channel data1 data2 = Ok found).
  { rewrite lookup_command_unfold.
    assert (exists status' data2', normalize status data2 = Ok (status', data2'))
      as (status' & data2' & ->).
    { unfold normalize. destruct (status =? NOTE_OFF); [eauto|].
      destruct (Z.eqb_spec status CONTROLLER_CHANGE) as [Heq|_]; [|eauto].
      destruct (Hcc Heq) as [d ->].
      destruct (d <? 64); [eauto|]. destruct (d >? 64); eauto. }
    apply scan_complete. apply Forall_forall. intros r Hr l Hl.
    destruct (keystrokes self !! Some status') as [rules|] eqn:Hk;
      simpl in Hr; [|by apply elem_of_nil in Hr].
    by apply (Hpairs (Some status') rules r l). }
  destruct Hlook as [[cmd|] Hlook].
  - rewrite (call_matched _ _ _ _ _ _ _ s Hdec Hlook).
    unfold do_command, try_except.
    destruct (do_command_body _ _ _) as [[[]|e] s1]; unfold_M; eauto.
  - rewrite (call_unmatched _ _ _ _ _ _ s Hdec Hlook). eauto.
Qed.

End NoException.

Lemma call_returns_witness :
  exists s' : state sendKey.os,
    MidiInputHandler.call
      (Sample.handler_of [(Some NOTE_ON, [Sample.rule_noteon_60])])
      [0x90; 60; 100] Sample.unbound
    = (Ok tt, s').
Proof.
  apply (call_returns _ [0x90; 60; 100] NOTE_ON (Some 1) (Some 60) (Some 100)).
  - reflexivity.
  - discriminate.
  - intros k rules r l Hk Hr Hl.
    apply elem_of_list_to_map_2 in Hk.
    apply list_elem_of_singleton in Hk. injection Hk as -> ->.
    apply list_elem_of_singleton in Hr. subst r. discriminate.
Defined.

(** ** Entries that are sequences *)

Lemma build_sequence (a b : yaml) (items : list yaml) :
  MidiInputHandler.build (YSeq (a :: b :: items))
  = Some <$> KeyStroke.of_args (a :: b :: items).
Proof.
  unfold MidiInputHandler.build. simpl MidiInputHandler.is_dict_with_keys.
  cbv iota.
  unfold py_len, py_iter, mbind, result_bind, rbind.
  destruct (Z.geb_spec (Z.of_nat (length (a :: b :: items))) 2) as [_|Hlt];
    [reflexivity|].
  simpl length in Hlt. lia.
Qed.

(** X21: an entry that is a sequence builds a rule exactly when it has six
    items, which are then the name, description, status, channel, data and
    keys of the rule, as if they were given by name; with two to five items
    there is no ["keys"] and [KeyStroke] raises [AttributeError]. *)
Theorem sequence_entry (items : list yaml) :
  (forall r : KeyStroke.t,
      MidiInputHandler.build (YSeq items) = Ok (Some r)
      <-> exists a b c d e f : yaml,
          items = [a; b; c; d; e; f]
          /\ KeyStroke.of_kwargs
               [("name", a); ("description", b); ("status", c);
                ("channel", d); ("data", e); ("keys", f)]%string = Ok r)
  /\ ((2 <= length items <= 5)%nat ->
      MidiInputHandler.build (YSeq items) = Raise AttributeError).
Proof.
  split.
  - intros r. split.
    + destruct items as [|a [|b items]]; [discriminate | discriminate |].
      rewrite build_sequence.
      destruct items as [|c [|d [|e [|f [|g items]]]]]; try discriminate.
      simpl KeyStroke.of_args.
      destruct (KeyStroke.init a b c d e f) as [r'|] eqn:Hinit; [|discriminate].
      intros [= <-]. exists a, b, c, d, e, f. split; [done|].
      unfold KeyStroke.of_kwargs. by simpl.
    + intros (a & b & c & d & e & f & -> & Hr).
      unfold KeyStroke.of_kwargs in Hr. simpl in Hr.
      rewrite build_sequence. simpl KeyStroke.of_args. by rewrite Hr.
  - intros Hlen.
    destruct items as [|a [|b items]]; simpl in Hlen; try lia.
    rewrite build_sequence.
    destruct items as [|c [|d [|e [|f items]]]]; simpl in Hlen; try lia;
      reflexivity.
Qed.

Lemma sequence_entry_witness :
  MidiInputHandler.build (YSeq [YStr "n"; YStr "d"; YStr "noteon"])
  = Raise AttributeError.
Proof.
  destruct (sequence_entry [YStr "n"; YStr "d"; YStr "noteon"]) as [_ H].
  apply H. simpl. lia.
Defined.

(** ** [sendKey.KeyStroke] *)

(** X22: [sendKey.KeyStroke] never raises: it calls [PressKey], sleeps
    0.1 s, calls [ReleaseKey], sleeps 0.1 s, in that order, and hands to
    [SendInput] a key-down and then a key-up for the scan code, which is
    what the press and release of [do_command] hands to it for one key that
    is bound to that code. *)
Theorem sendKey_KeyStroke_as_stroke (key_binds : list (string * string))
        (k : string) (code : Z) (sent : list sendKey.KeyBdInput)
        (tr : list effect) :
  scan_code key_binds k = Some code ->
  sendKey.KeyStroke code (mkState (sendKey.mkOs (Some key_binds) sent) tr)
  = (Ok tt,
     mkState (sendKey.mkOs (Some key_binds) (sent ++ [key_down code; key_up code]))
             (tr ++ [Call_PressKey code; Sleep 100;
                     Call_ReleaseKey code; Sleep 100]))
  /\ exists tr' : list effect,
      MidiInputHandler.do_command [k] KEY_DOWN_UP
        (mkState (sendKey.mkOs (Some key_binds) sent) tr)
      = (Ok tt,
         mkState (sendKey.mkOs (Some key_binds)
                    (sent ++ [key_down code; key_up code])) tr').
Proof.
  intros Hk. split.
  - unfold sendKey.KeyStroke, call_sendKey. unfold_M. simpl.
    unfold sendKey.SendInput. simpl. by rewrite <- !app_assoc.
  - change KEY_DOWN_UP with (code_of PressThenRelease). rewrite do_command_spec.
    unfold spec_dispatch, spec_sequence, try_except. simpl for_each.
    unfold mbind, M_bind. rewrite (press_bound _ _ _ _ _ Hk).
    unfold mret, M_ret, log, emit. simpl.
    rewrite (release_bound _ _ _ _ _ Hk). eexists. by rewrite <- app_assoc.
Qed.

Lemma sendKey_KeyStroke_as_stroke_witness :
  exists tr' : list effect,
    MidiInputHandler.do_command ["F2"%string] KEY_DOWN_UP Sample.bound
    = (Ok tt,
       mkState (sendKey.mkOs (Some [("F1", "0x3B"); ("F2", "0x3C")]%string)
                  ([] ++ [key_down 0x3C; key_up 0x3C])) tr').
Proof.
  destruct (sendKey_KeyStroke_as_stroke [("F1", "0x3B"); ("F2", "0x3C")]%string
              "F2" 0x3C [] []) as [_ H]; [reflexivity | exact H].
Defined.
